(** * The vTM Terraform provider: resources and data sources

    A model of the provider's CRUD functions (GLB service, security,
    traffic manager, the statistics data sources and the traffic manager
    list data source) and the properties of their table reconciliation,
    string-list defaults, list filtering and error handling. *)

From Stdlib Require Import ZArith String.
From stdpp Require Import base option list gmap strings.

Open Scope string_scope.

(** ** Values

    The schema framework hands attribute values around as [interface{}];
    the provider recovers their Go type with a type assertion, which
    panics on a mismatch. *)

#[warnings="-register-all"]
Inductive Value : Type :=
| VString (s : string)              (* string *)
| VBool (b : bool)                  (* bool *)
| VInt (n : Z)                      (* int *)
| VList (l : list Value)            (* []interface{}, []string, []map[string]interface{} and table types *)
| VSet (l : list Value)             (* *schema.Set, held as the slice its List() returns *)
| VMap (m : gmap string Value)      (* map[string]interface{} and the rows of a table *)
| VBytes (s : string).              (* []byte *)

(** Go's [error], by its message. *)
Definition error : Type := string.

(** Type assertions [v.(T)]: [None] is the run-time panic. *)
Definition asString (v : Value) : option string :=
  match v with VString s => Some s | _ => None end.
Definition asBool (v : Value) : option bool :=
  match v with VBool b => Some b | _ => None end.
Definition asInt (v : Value) : option Z :=
  match v with VInt n => Some n | _ => None end.
Definition asList (v : Value) : option (list Value) :=
  match v with VList l => Some l | _ => None end.
Definition asSet (v : Value) : option (list Value) :=
  match v with VSet l => Some l | _ => None end.
Definition asMap (v : Value) : option (gmap string Value) :=
  match v with VMap m => Some m | _ => None end.

(** [[]string{...}] as a value. *)
Definition stringList (l : list string) : Value := VList (VString <$> l).

(** The zero value test behind [GetOk]. *)
Definition isZero (v : Value) : bool :=
  match v with
  | VString s => match s with EmptyString => true | _ => false end
  | VBool b => negb b
  | VInt n => Z.eqb n 0
  | VList l | VSet l => match l with [] => true | _ => false end
  | VMap m => bool_decide (size m = 0)
  | VBytes s => match s with EmptyString => true | _ => false end
  end.

(** ** schema.ResourceData

    The attribute values of one resource instance and its id.  An
    attribute without a value has no entry. *)
Record ResourceData : Type := mkResourceData {
  attrs : gmap string Value;
  Id : string
}.

(** [d.Get(key)]; the nil interface is [None]. *)
Definition Get (d : ResourceData) (key : string) : option Value :=
  attrs d !! key.

(** [d.GetOk(key)]: the value, with [ok] true iff the attribute is set to
    a non-zero value; the callers look at the value only when [ok]
    holds, so the pair is held as an option. *)
Definition GetOk (d : ResourceData) (key : string) : option Value :=
  match attrs d !! key with
  | Some v => if isZero v then None else Some v
  | None => None
  end.

(** [d.Set(key, value)]; the callers drop its result. *)
Definition Set_ (d : ResourceData) (key : string) (value : Value) : ResourceData :=
  {| attrs := <[key := value]> (attrs d); Id := Id d |}.

(** [d.SetId(v)]. *)
Definition SetId (d : ResourceData) (v : string) : ResourceData :=
  {| attrs := attrs d; Id := v |}.

(** ** The REST client (go-vtm)

    A configuration or statistics object is what the client library
    declares as a struct of sections of pointer fields; here a finite map
    from the field's path ("Basic.Algorithm") to what the pointer points
    to, a nil pointer having no entry. *)
Record VtmObject : Type := mkVtmObject {
  objType : string;
  objName : string;
  fields : gmap string Value
}.

Record vtmErrorResponse : Type := mkVtmError {
  ErrorId : string;
  ErrorText : string
}.

(** The appliance as one call of the provider sees it through the
    client: what a getter ("GetGlbService", ...) answers for a name (the
    empty name for a singleton), what a listing method answers, what an
    [Apply()] answers, and the objects sent so far (latest first). *)
Record VirtualTrafficManager : Type := mkTm {
  fetch : string → string → VtmObject + vtmErrorResponse;
  listing : string → list string + vtmErrorResponse;
  applyAnswer : VtmObject → option vtmErrorResponse;
  sent : list VtmObject
}.

(** [object.Apply()]: the object goes upstream; the answer comes back. *)
Definition Apply (tm : VirtualTrafficManager) (object : VtmObject)
  : VirtualTrafficManager * option vtmErrorResponse :=
  ({| fetch := fetch tm; listing := listing tm; applyAnswer := applyAnswer tm;
      sent := object :: sent tm |},
   applyAnswer tm object).

(** [tm.NewGlbService(name)] and the like: an object with every pointer nil. *)
Definition NewObject (type name : string) : VtmObject :=
  {| objType := type; objName := name; fields := ∅ |}.

(** [object.F = v] for a pointer field. *)
Definition assign (object : VtmObject) (field : string) (v : Value) : VtmObject :=
  {| objType := objType object; objName := objName object;
     fields := <[field := v]> (fields object) |}.

(** The outcome of a CRUD function: [None] for a panic, else the
    resource data and the appliance afterwards and the returned error. *)
Definition Outcome : Type :=
  option (ResourceData * VirtualTrafficManager * option error).

(** ** What the provider calls and this source does not hold

    The provider's own utility functions (their file is not among the
    sources) and the Go library functions, by their signatures. A setter
    [setX(&object.F, d, key)] is given the resource data, the key and
    what the field points to, and answers what it points to afterwards. *)
Class Helpers : Type := {
  setString : ResourceData → string → option Value → option Value;
  setBool : ResourceData → string → option Value → option Value;
  setInt : ResourceData → string → option Value → option Value;
  setStringList : ResourceData → string → option Value → option Value;
  getStringAddr : string → Value;
  getBoolAddr : bool → Value;
  getIntAddr : Z → Value;
  getStringListAddr : list string → Value;
  expandStringList : list Value → list string;
  getStringListStartingWith : list string → string → list string;
  getStringListEndingWith : list string → string → list string;
  getStringListContaining : list string → string → list string;
  getStringListMatchingRegex : list string → string → list string * option error;
  (* encoding/json: Unmarshal(data, target) gives the target afterwards and the error;
     Marshal(v) *)
  jsonUnmarshal : string → Value → Value * option error;
  jsonMarshal : Value → string * option error;
  (* fmt's %v of a *vtmErrorResponse *)
  fmtErrorResponse : vtmErrorResponse → string
}.

Section Model.
Context `{Helpers}.

(** ** Building the object in Create and Update

    A statement of a Create or Update body works on the resource data
    [d] and on the local [object]; [None] is a panic. *)
Definition Action : Type :=
  ResourceData * VtmObject → option (ResourceData * VtmObject).

(** The statements of a body, in order. *)
Fixpoint runAll (body : list Action) (st : ResourceData * VtmObject)
  : option (ResourceData * VtmObject) :=
  match body with
  | [] => Some st
  | a :: rest => st' ← a st; runAll rest st'
  end.

(** [setX(&object.F, d, "key")]. *)
Definition callSetter (setX : ResourceData → string → option Value → option Value)
    (field key : string) : Action :=
  λ '(d, object),
    Some (d, {| objType := objType object; objName := objName object;
                fields := partial_alter (setX d key) field (fields object) |}).

(** A list-of-strings attribute:
<<
  if _, ok := d.GetOk("key"); ok {
      setStringList(&object.F, d, "key")
  } else {
      object.F = &[]string{ default... }
      d.Set("key", []string( *object.F))
  }
>> *)
Definition stringListAttr (field key : string) (default : list string) : Action :=
  λ '(d, object),
    match GetOk d key with
    | Some _ => callSetter setStringList field key (d, object)
    | None =>
        let object := assign object field (stringList default) in
        Some (Set_ d key (stringList default), object)
    end.

(** A table attribute: the field of the object, the JSON shadow
    attribute, the structured attribute, and the body of the loop that
    turns one row of the structured attribute into a row of the table. *)
Record TableAttr : Type := mkTableAttr {
  tField : string;
  tJson : string;
  tKey : string;
  tRow : Value → option Value
}.

(** [for _, row := range rows { ...; append VtmObject to the table at object.F }] *)
Fixpoint appendRows (conv : Value → option Value) (rows table : list Value)
  : option (list Value) :=
  match rows with
  | [] => Some table
  | row :: rest => VtmObject ← conv row; appendRows conv rest (table ++ [VtmObject])
  end.

(** The block of a table attribute:
<<
  object.F = &vtm.Table{}
  if j, ok := d.GetOk("key_json"); ok {
      _ = json.Unmarshal([]byte(j.(string)), object.F)
  } else if l, ok := d.GetOk("key"); ok {
      for _, row := range the List() of the set l { ... }
      d.Set("key", l)
  } else {
      d.Set("key", make([]map[string]interface{}, 0, len( *object.F)))
  }
>> *)
Definition tableAttr (t : TableAttr) : Action :=
  λ '(d, object),
    let object := assign object (tField t) (VList []) in
    match GetOk d (tJson t) with
    | Some j =>
        s ← asString j;
        let '(table, _) := jsonUnmarshal s (VList []) in
        Some (d, assign object (tField t) table)
    | None =>
        match GetOk d (tKey t) with
        | Some l =>
            rows ← asSet l;
            table ← appendRows (tRow t) rows [];
            Some (Set_ d (tKey t) l, assign object (tField t) (VList table))
        | None => Some (Set_ d (tKey t) (VList []), object)
        end
    end.

(** ** Copying the object into the resource data in Read

    A statement of a Read body works on the resource data, given the
    fetched object; [None] is a panic (a nil pointer is dereferenced). *)
Definition ReadAction : Type := VtmObject → ResourceData → option ResourceData.

Fixpoint readAll (body : list ReadAction) (object : VtmObject) (d : ResourceData)
  : option ResourceData :=
  match body with
  | [] => Some d
  | a :: rest => d' ← a object d; readAll rest object d'
  end.

(** [d.Set("key", T( *object.F))]. *)
Definition readField (key field : string) : ReadAction :=
  λ object d, v ← fields object !! field; Some (Set_ d key v).

(** One row of a table as a [map[string]interface{}]:
    [if item.F != nil { itemTerraform["key"] = T( *item.F) }], column by column. *)
Definition itemTerraformOf (cols : list (string * string)) (item : gmap string Value)
  : gmap string Value :=
  foldl (λ itemTerraform '(F, key),
           match item !! F with
           | Some v => <[key := v]> itemTerraform
           | None => itemTerraform
           end) ∅ cols.

(** A table attribute in Read: the rows of [*object.F] are turned into
    maps, which are set at the structured attribute; their
    [json.Marshal] (its error dropped) is set at the JSON shadow. *)
Definition readTable (field key jsonKey : string) (cols : list (string * string))
  : ReadAction :=
  λ object d,
    table ← fields object !! field ≫= asList;
    rows ← mapM (λ item, VMap ∘ itemTerraformOf cols <$> asMap item) table;
    let d := Set_ d key (VList rows) in
    let '(rowsJson, _) := jsonMarshal (VList rows) in
    Some (Set_ d jsonKey (VBytes rowsJson)).

(** ** GLB service (go-vtm 4.0) *)

Definition dnssecKeysRow (row : Value) : option Value :=
  itemTerraform ← asMap row;
  let VtmObject : gmap string Value := ∅ in
  domain_ ← itemTerraform !! "domain" ≫= asString;
  let VtmObject := <["Domain" := getStringAddr domain_]> VtmObject in
  ssl_key_ ← itemTerraform !! "ssl_key" ≫= asList;
  let VtmObject := <["SslKey" := getStringListAddr (expandStringList ssl_key_)]> VtmObject in
  Some (VMap VtmObject).

Definition dnssecKeys : TableAttr :=
  {| tField := "Basic.DnssecKeys"; tJson := "dnssec_keys_json"; tKey := "dnssec_keys"; tRow := dnssecKeysRow |}.

Definition locationSettingsRow (row : Value) : option Value :=
  itemTerraform ← asMap row;
  let VtmObject : gmap string Value := ∅ in
  ips_ ← itemTerraform !! "ips" ≫= asList;
  let VtmObject := <["Ips" := getStringListAddr (expandStringList ips_)]> VtmObject in
  location_ ← itemTerraform !! "location" ≫= asString;
  let VtmObject := <["Location" := getStringAddr location_]> VtmObject in
  monitors_ ← itemTerraform !! "monitors" ≫= asList;
  let VtmObject := <["Monitors" := getStringListAddr (expandStringList monitors_)]> VtmObject in
  weight_ ← itemTerraform !! "weight" ≫= asInt;
  let VtmObject := <["Weight" := getIntAddr weight_]> VtmObject in
  Some (VMap VtmObject).

Definition locationSettings : TableAttr :=
  {| tField := "Basic.LocationSettings"; tJson := "location_settings_json"; tKey := "location_settings"; tRow := locationSettingsRow |}.

Definition glbServiceSettings : list Action :=
  [ callSetter setString "Basic.Algorithm" "algorithm";
    callSetter setBool "Basic.AllMonitorsNeeded" "all_monitors_needed";
    callSetter setBool "Basic.Autorecovery" "autorecovery";
    callSetter setBool "Basic.ChainedAutoFailback" "chained_auto_failback";
    stringListAttr "Basic.ChainedLocationOrder" "chained_location_order" [];
    callSetter setBool "Basic.DisableOnFailure" "disable_on_failure";
    stringListAttr "Basic.Domains" "domains" [];
    callSetter setBool "Basic.Enabled" "enabled";
    callSetter setInt "Basic.GeoEffect" "geo_effect";
    stringListAttr "Basic.LastResortResponse" "last_resort_response" [];
    stringListAttr "Basic.LocationDraining" "location_draining" [];
    callSetter setBool "Basic.ReturnIpsOnFail" "return_ips_on_fail";
    stringListAttr "Basic.Rules" "rules" [];
    callSetter setInt "Basic.Ttl" "ttl";
    tableAttr dnssecKeys;
    tableAttr locationSettings;
    callSetter setBool "Log.Enabled" "log_enabled";
    callSetter setString "Log.Filename" "log_filename";
    callSetter setString "Log.Format" "log_format" ].

(** [fmt.Errorf("Failed to <verb> <type> '%v': %v", objectName, text)]. *)
Definition failedNamed (verb type objectName text : string) : error :=
  "Failed to " ++ verb ++ " " ++ type ++ " '" ++ objectName ++ "': " ++ text.

(** [fmt.Errorf("Failed to <verb> <type>: %v", text)]. *)
Definition failedSingleton (verb type text : string) : error :=
  "Failed to " ++ verb ++ " " ++ type ++ ": " ++ text.

Definition resourceGlbServiceCreate (d : ResourceData) (tm : VirtualTrafficManager)
  : Outcome :=
  objectName ← Get d "name" ≫= asString;
  let object := NewObject "GlbService" objectName in
  '(d, object) ← runAll glbServiceSettings (d, object);
  let '(tm, _) := Apply tm object in
  let d := SetId d objectName in
  Some (d, tm, None).

Definition resourceGlbServiceUpdate (d : ResourceData) (tm : VirtualTrafficManager)
  : Outcome :=
  objectName ← Get d "name" ≫= asString;
  match fetch tm "GetGlbService" objectName with
  | inr err =>
      Some (d, tm, Some (failedNamed "update" "vtm_glb_service" objectName (fmtErrorResponse err)))
  | inl object =>
      '(d, object) ← runAll glbServiceSettings (d, object);
      let '(tm, _) := Apply tm object in
      let d := SetId d objectName in
      Some (d, tm, None)
  end.

Definition glbServiceAttributes : list ReadAction :=
  [ readField "algorithm" "Basic.Algorithm";
    readField "all_monitors_needed" "Basic.AllMonitorsNeeded";
    readField "autorecovery" "Basic.Autorecovery";
    readField "chained_auto_failback" "Basic.ChainedAutoFailback";
    readField "chained_location_order" "Basic.ChainedLocationOrder";
    readField "disable_on_failure" "Basic.DisableOnFailure";
    readTable "Basic.DnssecKeys" "dnssec_keys" "dnssec_keys_json"
      [("Domain", "domain"); ("SslKey", "ssl_key")];
    readField "domains" "Basic.Domains";
    readField "enabled" "Basic.Enabled";
    readField "geo_effect" "Basic.GeoEffect";
    readField "last_resort_response" "Basic.LastResortResponse";
    readField "location_draining" "Basic.LocationDraining";
    readTable "Basic.LocationSettings" "location_settings" "location_settings_json"
      [("Ips", "ips"); ("Location", "location"); ("Monitors", "monitors"); ("Weight", "weight")];
    readField "return_ips_on_fail" "Basic.ReturnIpsOnFail";
    readField "rules" "Basic.Rules";
    readField "ttl" "Basic.Ttl";
    readField "log_enabled" "Log.Enabled";
    readField "log_filename" "Log.Filename";
    readField "log_format" "Log.Format" ].


Definition resourceGlbServiceRead (d : ResourceData) (tm : VirtualTrafficManager)
  : Outcome :=
  objectName ← Get d "name" ≫= asString;
  match fetch tm "GetGlbService" objectName with
  | inr err =>
      if String.eqb (ErrorId err) "resource.not_found" then
        let d := SetId d "" in
        Some (d, tm, None)
      else
        Some (d, tm, Some (failedNamed "read" "vtm_glb_service" objectName (ErrorText err)))
  | inl object =>
      d ← readAll glbServiceAttributes object d;
      let d := SetId d objectName in
      Some (d, tm, None)
  end.

(** ** Security (go-vtm 5.2), a singleton *)

Definition securityAttributes : list ReadAction :=
  [ readField "access" "Basic.Access";
    readField "ssh_intrusion_bantime" "SshIntrusion.Bantime";
    readField "ssh_intrusion_blacklist" "SshIntrusion.Blacklist";
    readField "ssh_intrusion_enabled" "SshIntrusion.Enabled";
    readField "ssh_intrusion_findtime" "SshIntrusion.Findtime";
    readField "ssh_intrusion_maxretry" "SshIntrusion.Maxretry";
    readField "ssh_intrusion_whitelist" "SshIntrusion.Whitelist" ].


Definition resourceSecurityRead (d : ResourceData) (tm : VirtualTrafficManager)
  : Outcome :=
  match fetch tm "GetSecurity" "" with
  | inr err =>
      Some (d, tm, Some (failedSingleton "read" "vtm_security" (ErrorText err)))
  | inl object =>
      d ← readAll securityAttributes object d;
      let d := SetId d "security" in
      Some (d, tm, None)
  end.

Definition securitySettings : list Action :=
  [ stringListAttr "Basic.Access" "access" [];
    callSetter setInt "SshIntrusion.Bantime" "ssh_intrusion_bantime";
    stringListAttr "SshIntrusion.Blacklist" "ssh_intrusion_blacklist" [];
    callSetter setBool "SshIntrusion.Enabled" "ssh_intrusion_enabled";
    callSetter setInt "SshIntrusion.Findtime" "ssh_intrusion_findtime";
    callSetter setInt "SshIntrusion.Maxretry" "ssh_intrusion_maxretry";
    stringListAttr "SshIntrusion.Whitelist" "ssh_intrusion_whitelist" [] ].


Definition resourceSecurityUpdate (d : ResourceData) (tm : VirtualTrafficManager)
  : Outcome :=
  match fetch tm "GetSecurity" "" with
  | inr err =>
      Some (d, tm, Some (failedSingleton "update" "vtm_security" (fmtErrorResponse err)))
  | inl object =>
      '(d, object) ← runAll securitySettings (d, object);
      let '(tm, _) := Apply tm object in
      let d := SetId d "security" in
      Some (d, tm, None)
  end.

(** ** Traffic manager (go-vtm 5.2) *)

Definition trafficManagerAttributes : list ReadAction :=
  [ readField "adminmasterxmlip" "Basic.Adminmasterxmlip";
    readField "adminslavexmlip" "Basic.Adminslavexmlip";
    readTable "Basic.ApplianceCard" "appliance_card" "appliance_card_json"
      [("Interfaces", "interfaces"); ("Label", "label"); ("Name", "name")];
    readTable "Basic.ApplianceSysctl" "appliance_sysctl" "appliance_sysctl_json"
      [("Description", "description"); ("Sysctl", "sysctl"); ("Value", "value")];
    readField "authenticationserverip" "Basic.Authenticationserverip";
    readField "cloud_platform" "Basic.CloudPlatform";
    readField "location" "Basic.Location";
    readField "nameip" "Basic.Nameip";
    readField "num_aptimizer_threads" "Basic.NumAptimizerThreads";
    readField "num_children" "Basic.NumChildren";
    readField "numberofcpus" "Basic.Numberofcpus";
    readField "restserverport" "Basic.Restserverport";
    readTable "Basic.Trafficip" "trafficip" "trafficip_json"
      [("Name", "name"); ("Networks", "networks")];
    readField "updaterip" "Basic.Updaterip";
    readField "appliance_disable_kpti" "Appliance.DisableKpti";
    readField "appliance_gateway_ipv4" "Appliance.GatewayIpv4";
    readField "appliance_gateway_ipv6" "Appliance.GatewayIpv6";
    readField "appliance_hostname" "Appliance.Hostname";
    readTable "Appliance.Hosts" "appliance_hosts" "appliance_hosts_json"
      [("IpAddress", "ip_address"); ("Name", "name")];
    readTable "Appliance.If" "appliance_if" "appliance_if_json"
      [("Autoneg", "autoneg"); ("Bmode", "bmode"); ("Bond", "bond"); ("Duplex", "duplex"); ("Mode", "mode"); ("Mtu", "mtu"); ("Name", "name"); ("Speed", "speed")];
    readTable "Appliance.Ip" "appliance_ip" "appliance_ip_json"
      [("Addr", "addr"); ("Isexternal", "isexternal"); ("Mask", "mask"); ("Name", "name")];
    readField "appliance_ipmi_lan_access" "Appliance.IpmiLanAccess";
    readField "appliance_ipmi_lan_addr" "Appliance.IpmiLanAddr";
    readField "appliance_ipmi_lan_gateway" "Appliance.IpmiLanGateway";
    readField "appliance_ipmi_lan_ipsrc" "Appliance.IpmiLanIpsrc";
    readField "appliance_ipmi_lan_mask" "Appliance.IpmiLanMask";
    readField "appliance_ipv4_forwarding" "Appliance.Ipv4Forwarding";
    readField "appliance_ipv6_forwarding" "Appliance.Ipv6Forwarding";
    readField "appliance_licence_agreed" "Appliance.LicenceAgreed";
    readField "appliance_manageazureroutes" "Appliance.Manageazureroutes";
    readField "appliance_managedpa" "Appliance.Managedpa";
    readField "appliance_manageec2conf" "Appliance.Manageec2Conf";
    readField "appliance_manageiptrans" "Appliance.Manageiptrans";
    readField "appliance_managereservedports" "Appliance.Managereservedports";
    readField "appliance_managereturnpath" "Appliance.Managereturnpath";
    readField "appliance_manageservices" "Appliance.Manageservices";
    readField "appliance_managevpcconf" "Appliance.Managevpcconf";
    readField "appliance_name_servers" "Appliance.NameServers";
    readField "appliance_ntpservers" "Appliance.Ntpservers";
    readTable "Appliance.Routes" "appliance_routes" "appliance_routes_json"
      [("Gw", "gw"); ("If", "if"); ("Mask", "mask"); ("Name", "name")];
    readField "appliance_search_domains" "Appliance.SearchDomains";
    readField "appliance_ssh_enabled" "Appliance.SshEnabled";
    readField "appliance_ssh_password_allowed" "Appliance.SshPasswordAllowed";
    readField "appliance_ssh_port" "Appliance.SshPort";
    readField "appliance_timezone" "Appliance.Timezone";
    readField "appliance_vlans" "Appliance.Vlans";
    readField "cluster_comms_allow_update" "ClusterComms.AllowUpdate";
    readField "cluster_comms_bind_ip" "ClusterComms.BindIp";
    readField "cluster_comms_external_ip" "ClusterComms.ExternalIp";
    readField "cluster_comms_port" "ClusterComms.Port";
    readField "ec2_trafficips_public_enis" "Ec2.TrafficipsPublicEnis";
    readField "fault_tolerance_bgp_router_id" "FaultTolerance.BgpRouterId";
    readField "fault_tolerance_lss_dedicated_ips" "FaultTolerance.LssDedicatedIps";
    readField "fault_tolerance_ospfv2_ip" "FaultTolerance.Ospfv2Ip";
    readField "fault_tolerance_ospfv2_neighbor_addrs" "FaultTolerance.Ospfv2NeighborAddrs";
    readField "iptables_config_enabled" "Iptables.ConfigEnabled";
    readField "iptrans_fwmark" "Iptrans.Fwmark";
    readField "iptrans_iptables_enabled" "Iptrans.IptablesEnabled";
    readField "iptrans_routing_table" "Iptrans.RoutingTable";
    readField "java_port" "Java.Port";
    readField "remote_licensing_email_address" "RemoteLicensing.EmailAddress";
    readField "remote_licensing_message" "RemoteLicensing.Message";
    readField "rest_api_bind_ips" "RestApi.BindIps";
    readField "rest_api_port" "RestApi.Port";
    readField "snmp_allow" "Snmp.Allow";
    readField "snmp_auth_password" "Snmp.AuthPassword";
    readField "snmp_bind_ip" "Snmp.BindIp";
    readField "snmp_community" "Snmp.Community";
    readField "snmp_enabled" "Snmp.Enabled";
    readField "snmp_hash_algorithm" "Snmp.HashAlgorithm";
    readField "snmp_port" "Snmp.Port";
    readField "snmp_priv_password" "Snmp.PrivPassword";
    readField "snmp_security_level" "Snmp.SecurityLevel";
    readField "snmp_username" "Snmp.Username" ].


Definition resourceTrafficManagerRead (d : ResourceData) (tm : VirtualTrafficManager)
  : Outcome :=
  objectName ← Get d "name" ≫= asString;
  match fetch tm "GetTrafficManager" objectName with
  | inr err =>
      if String.eqb (ErrorId err) "resource.not_found" then
        let d := SetId d "" in
        Some (d, tm, None)
      else
        Some (d, tm, Some (failedNamed "read" "vtm_traffic_manager" objectName (ErrorText err)))
  | inl object =>
      d ← readAll trafficManagerAttributes object d;
      let d := SetId d objectName in
      Some (d, tm, None)
  end.

Definition applianceHostsRow (row : Value) : option Value :=
  itemTerraform ← asMap row;
  let VtmObject : gmap string Value := ∅ in
  ip_address_ ← itemTerraform !! "ip_address" ≫= asString;
  let VtmObject := <["IpAddress" := getStringAddr ip_address_]> VtmObject in
  name_ ← itemTerraform !! "name" ≫= asString;
  let VtmObject := <["Name" := getStringAddr name_]> VtmObject in
  Some (VMap VtmObject).

Definition applianceHosts : TableAttr :=
  {| tField := "Appliance.Hosts"; tJson := "appliance_hosts_json"; tKey := "appliance_hosts"; tRow := applianceHostsRow |}.

Definition applianceIfRow (row : Value) : option Value :=
  itemTerraform ← asMap row;
  let VtmObject : gmap string Value := ∅ in
  autoneg_ ← itemTerraform !! "autoneg" ≫= asBool;
  let VtmObject := <["Autoneg" := getBoolAddr autoneg_]> VtmObject in
  bmode_ ← itemTerraform !! "bmode" ≫= asString;
  let VtmObject := <["Bmode" := getStringAddr bmode_]> VtmObject in
  bond_ ← itemTerraform !! "bond" ≫= asString;
  let VtmObject := <["Bond" := getStringAddr bond_]> VtmObject in
  duplex_ ← itemTerraform !! "duplex" ≫= asBool;
  let VtmObject := <["Duplex" := getBoolAddr duplex_]> VtmObject in
  mode_ ← itemTerraform !! "mode" ≫= asString;
  let VtmObject := <["Mode" := getStringAddr mode_]> VtmObject in
  mtu_ ← itemTerraform !! "mtu" ≫= asInt;
  let VtmObject := <["Mtu" := getIntAddr mtu_]> VtmObject in
  name_ ← itemTerraform !! "name" ≫= asString;
  let VtmObject := <["Name" := getStringAddr name_]> VtmObject in
  speed_ ← itemTerraform !! "speed" ≫= asString;
  let VtmObject := <["Speed" := getStringAddr speed_]> VtmObject in
  Some (VMap VtmObject).

Definition applianceIf : TableAttr :=
  {| tField := "Appliance.If"; tJson := "appliance_if_json"; tKey := "appliance_if"; tRow := applianceIfRow |}.

Definition applianceIpRow (row : Value) : option Value :=
  itemTerraform ← asMap row;
  let VtmObject : gmap string Value := ∅ in
  addr_ ← itemTerraform !! "addr" ≫= asString;
  let VtmObject := <["Addr" := getStringAddr addr_]> VtmObject in
  isexternal_ ← itemTerraform !! "isexternal" ≫= asBool;
  let VtmObject := <["Isexternal" := getBoolAddr isexternal_]> VtmObject in
  mask_ ← itemTerraform !! "mask" ≫= asString;
  let VtmObject := <["Mask" := getStringAddr mask_]> VtmObject in
  name_ ← itemTerraform !! "name" ≫= asString;
  let VtmObject := <["Name" := getStringAddr name_]> VtmObject in
  Some (VMap VtmObject).

Definition applianceIp : TableAttr :=
  {| tField := "Appliance.Ip"; tJson := "appliance_ip_json"; tKey := "appliance_ip"; tRow := applianceIpRow |}.

Definition applianceRoutesRow (row : Value) : option Value :=
  itemTerraform ← asMap row;
  let VtmObject : gmap string Value := ∅ in
  gw_ ← itemTerraform !! "gw" ≫= asString;
  let VtmObject := <["Gw" := getStringAddr gw_]> VtmObject in
  if_ ← itemTerraform !! "if" ≫= asString;
  let VtmObject := <["If" := getStringAddr if_]> VtmObject in
  mask_ ← itemTerraform !! "mask" ≫= asString;
  let VtmObject := <["Mask" := getStringAddr mask_]> VtmObject in
  name_ ← itemTerraform !! "name" ≫= asString;
  let VtmObject := <["Name" := getStringAddr name_]> VtmObject in
  Some (VMap VtmObject).

Definition applianceRoutes : TableAttr :=
  {| tField := "Appliance.Routes"; tJson := "appliance_routes_json"; tKey := "appliance_routes"; tRow := applianceRoutesRow |}.

Definition applianceCardRow (row : Value) : option Value :=
  itemTerraform ← asMap row;
  let VtmObject : gmap string Value := ∅ in
  interfaces_ ← itemTerraform !! "interfaces" ≫= asList;
  let VtmObject := <["Interfaces" := getStringListAddr (expandStringList interfaces_)]> VtmObject in
  label_ ← itemTerraform !! "label" ≫= asString;
  let VtmObject := <["Label" := getStringAddr label_]> VtmObject in
  name_ ← itemTerraform !! "name" ≫= asString;
  let VtmObject := <["Name" := getStringAddr name_]> VtmObject in
  Some (VMap VtmObject).

Definition applianceCard : TableAttr :=
  {| tField := "Basic.ApplianceCard"; tJson := "appliance_card_json"; tKey := "appliance_card"; tRow := applianceCardRow |}.

Definition applianceSysctlRow (row : Value) : option Value :=
  itemTerraform ← asMap row;
  let VtmObject : gmap string Value := ∅ in
  description_ ← itemTerraform !! "description" ≫= asString;
  let VtmObject := <["Description" := getStringAddr description_]> VtmObject in
  sysctl_ ← itemTerraform !! "sysctl" ≫= asString;
  let VtmObject := <["Sysctl" := getStringAddr sysctl_]> VtmObject in
  value_ ← itemTerraform !! "value" ≫= asString;
  let VtmObject := <["Value" := getStringAddr value_]> VtmObject in
  Some (VMap VtmObject).

Definition applianceSysctl : TableAttr :=
  {| tField := "Basic.ApplianceSysctl"; tJson := "appliance_sysctl_json"; tKey := "appliance_sysctl"; tRow := applianceSysctlRow |}.

Definition trafficipRow (row : Value) : option Value :=
  itemTerraform ← asMap row;
  let VtmObject : gmap string Value := ∅ in
  name_ ← itemTerraform !! "name" ≫= asString;
  let VtmObject := <["Name" := getStringAddr name_]> VtmObject in
  networks_ ← itemTerraform !! "networks" ≫= asList;
  let VtmObject := <["Networks" := getStringListAddr (expandStringList networks_)]> VtmObject in
  Some (VMap VtmObject).

Definition trafficip : TableAttr :=
  {| tField := "Basic.Trafficip"; tJson := "trafficip_json"; tKey := "trafficip"; tRow := trafficipRow |}.

Definition trafficManagerSettings : list Action :=
  [ callSetter setString "Basic.Adminmasterxmlip" "adminmasterxmlip";
    callSetter setString "Basic.Adminslavexmlip" "adminslavexmlip";
    callSetter setString "Basic.Authenticationserverip" "authenticationserverip";
    callSetter setString "Basic.CloudPlatform" "cloud_platform";
    callSetter setString "Basic.Location" "location";
    callSetter setString "Basic.Nameip" "nameip";
    callSetter setInt "Basic.NumAptimizerThreads" "num_aptimizer_threads";
    callSetter setInt "Basic.NumChildren" "num_children";
    callSetter setInt "Basic.Numberofcpus" "numberofcpus";
    callSetter setInt "Basic.Restserverport" "restserverport";
    callSetter setString "Basic.Updaterip" "updaterip";
    callSetter setBool "Appliance.DisableKpti" "appliance_disable_kpti";
    callSetter setString "Appliance.GatewayIpv4" "appliance_gateway_ipv4";
    callSetter setString "Appliance.GatewayIpv6" "appliance_gateway_ipv6";
    callSetter setString "Appliance.Hostname" "appliance_hostname";
    tableAttr applianceHosts;
    tableAttr applianceIf;
    tableAttr applianceIp;
    callSetter setBool "Appliance.IpmiLanAccess" "appliance_ipmi_lan_access";
    callSetter setString "Appliance.IpmiLanAddr" "appliance_ipmi_lan_addr";
    callSetter setString "Appliance.IpmiLanGateway" "appliance_ipmi_lan_gateway";
    callSetter setString "Appliance.IpmiLanIpsrc" "appliance_ipmi_lan_ipsrc";
    callSetter setString "Appliance.IpmiLanMask" "appliance_ipmi_lan_mask";
    callSetter setBool "Appliance.Ipv4Forwarding" "appliance_ipv4_forwarding";
    callSetter setBool "Appliance.Ipv6Forwarding" "appliance_ipv6_forwarding";
    callSetter setBool "Appliance.LicenceAgreed" "appliance_licence_agreed";
    callSetter setBool "Appliance.Manageazureroutes" "appliance_manageazureroutes";
    callSetter setBool "Appliance.Managedpa" "appliance_managedpa";
    callSetter setBool "Appliance.Manageec2Conf" "appliance_manageec2conf";
    callSetter setBool "Appliance.Manageiptrans" "appliance_manageiptrans";
    callSetter setBool "Appliance.Managereservedports" "appliance_managereservedports";
    callSetter setBool "Appliance.Managereturnpath" "appliance_managereturnpath";
    callSetter setBool "Appliance.Manageservices" "appliance_manageservices";
    callSetter setBool "Appliance.Managevpcconf" "appliance_managevpcconf";
    stringListAttr "Appliance.NameServers" "appliance_name_servers" [];
    stringListAttr "Appliance.Ntpservers" "appliance_ntpservers" ["0.zeus.pool.ntp.org"; "1.zeus.pool.ntp.org"; "2.zeus.pool.ntp.org"; "3.zeus.pool.ntp.org"];
    tableAttr applianceRoutes;
    stringListAttr "Appliance.SearchDomains" "appliance_search_domains" [];
    callSetter setBool "Appliance.SshEnabled" "appliance_ssh_enabled";
    callSetter setBool "Appliance.SshPasswordAllowed" "appliance_ssh_password_allowed";
    callSetter setInt "Appliance.SshPort" "appliance_ssh_port";
    callSetter setString "Appliance.Timezone" "appliance_timezone";
    stringListAttr "Appliance.Vlans" "appliance_vlans" [];
    tableAttr applianceCard;
    tableAttr applianceSysctl;
    tableAttr trafficip;
    callSetter setBool "ClusterComms.AllowUpdate" "cluster_comms_allow_update";
    callSetter setString "ClusterComms.BindIp" "cluster_comms_bind_ip";
    callSetter setString "ClusterComms.ExternalIp" "cluster_comms_external_ip";
    callSetter setInt "ClusterComms.Port" "cluster_comms_port";
    stringListAttr "Ec2.TrafficipsPublicEnis" "ec2_trafficips_public_enis" [];
    callSetter setString "FaultTolerance.BgpRouterId" "fault_tolerance_bgp_router_id";
    stringListAttr "FaultTolerance.LssDedicatedIps" "fault_tolerance_lss_dedicated_ips" [];
    callSetter setString "FaultTolerance.Ospfv2Ip" "fault_tolerance_ospfv2_ip";
    stringListAttr "FaultTolerance.Ospfv2NeighborAddrs" "fault_tolerance_ospfv2_neighbor_addrs" ["%gateway%"];
    callSetter setBool "Iptables.ConfigEnabled" "iptables_config_enabled";
    callSetter setInt "Iptrans.Fwmark" "iptrans_fwmark";
    callSetter setBool "Iptrans.IptablesEnabled" "iptrans_iptables_enabled";
    callSetter setInt "Iptrans.RoutingTable" "iptrans_routing_table";
    callSetter setInt "Java.Port" "java_port";
    callSetter setString "RemoteLicensing.EmailAddress" "remote_licensing_email_address";
    callSetter setString "RemoteLicensing.Message" "remote_licensing_message";
    stringListAttr "RestApi.BindIps" "rest_api_bind_ips" ["*"];
    callSetter setInt "RestApi.Port" "rest_api_port";
    stringListAttr "Snmp.Allow" "snmp_allow" ["all"];
    callSetter setString "Snmp.AuthPassword" "snmp_auth_password";
    callSetter setString "Snmp.BindIp" "snmp_bind_ip";
    callSetter setString "Snmp.Community" "snmp_community";
    callSetter setBool "Snmp.Enabled" "snmp_enabled";
    callSetter setString "Snmp.HashAlgorithm" "snmp_hash_algorithm";
    callSetter setString "Snmp.Port" "snmp_port";
    callSetter setString "Snmp.PrivPassword" "snmp_priv_password";
    callSetter setString "Snmp.SecurityLevel" "snmp_security_level";
    callSetter setString "Snmp.Username" "snmp_username" ].


Definition resourceTrafficManagerUpdate (d : ResourceData) (tm : VirtualTrafficManager)
  : Outcome :=
  objectName ← Get d "name" ≫= asString;
  match fetch tm "GetTrafficManager" objectName with
  | inr err =>
      Some (d, tm, Some (failedNamed "update" "vtm_traffic_manager" objectName (fmtErrorResponse err)))
  | inl object =>
      '(d, object) ← runAll trafficManagerSettings (d, object);
      let '(tm, _) := Apply tm object in
      let d := SetId d objectName in
      Some (d, tm, None)
  end.

(** ** Statistics data sources *)

(** Event statistics (go-vtm 5.2). *)
Definition dataSourceEventStatisticsRead (d : ResourceData) (tm : VirtualTrafficManager)
  : Outcome :=
  objectName ← Get d "name" ≫= asString;
  match fetch tm "GetEventStatistics" objectName with
  | inr err =>
      if String.eqb (ErrorId err) "resource.not_found" then
        let d := SetId d "" in
        Some (d, tm, None)
      else
        Some (d, tm, Some (failedNamed "read" "vtm_events" objectName (ErrorText err)))
  | inl object =>
      d ← readField "matched" "Statistics.Matched" object d;
      let d := SetId d objectName in
      Some (d, tm, None)
  end.

(** The 64-bit user counters (go-vtm 4.0), a singleton. *)
Definition dataSourceExtrasUserCounters64StatisticsRead (d : ResourceData)
    (tm : VirtualTrafficManager) : Outcome :=
  match fetch tm "GetExtrasUserCounters64Statistics" "" with
  | inr err =>
      Some (d, tm, Some (failedSingleton "read" "vtm_user_counters_64" (ErrorText err)))
  | inl object =>
      d ← readField "counter" "Statistics.Counter" object d;
      let d := SetId d "user_counters_64" in
      Some (d, tm, None)
  end.

Definition listenIpAttributes : list ReadAction :=
  [ readField "bytes_in" "Statistics.BytesIn";
    readField "bytes_out" "Statistics.BytesOut";
    readField "current_conn" "Statistics.CurrentConn";
    readField "max_conn" "Statistics.MaxConn";
    readField "total_requests" "Statistics.TotalRequests" ].

(** Listen IP statistics (go-vtm 4.0). *)
Definition dataSourceListenIpStatisticsRead (d : ResourceData) (tm : VirtualTrafficManager)
  : Outcome :=
  objectName ← Get d "name" ≫= asString;
  match fetch tm "GetListenIpStatistics" objectName with
  | inr err =>
      if String.eqb (ErrorId err) "resource.not_found" then
        let d := SetId d "" in
        Some (d, tm, None)
      else
        Some (d, tm, Some (failedNamed "read" "vtm_listen_ips" objectName (ErrorText err)))
  | inl object =>
      d ← readAll listenIpAttributes object d;
      let d := SetId d objectName in
      Some (d, tm, None)
  end.

(** ** The traffic manager list data source (go-vtm 4.0) *)

Definition dataSourceTrafficManagerListRead (d : ResourceData) (tm : VirtualTrafficManager)
  : Outcome :=
  match listing tm "ListTrafficManagers" with
  | inr err =>
      let d := SetId d "" in
      Some (d, tm, Some (failedSingleton "read" "vtm_traffic_manager_list" (ErrorText err)))
  | inl objectList =>
      objectList ←
        match GetOk d "starts_with" with
        | Some starts_with => getStringListStartingWith objectList <$> asString starts_with
        | None => Some objectList
        end;
      objectList ←
        match GetOk d "ends_with" with
        | Some ends_with => getStringListEndingWith objectList <$> asString ends_with
        | None => Some objectList
        end;
      objectList ←
        match GetOk d "contains" with
        | Some contains => getStringListContaining objectList <$> asString contains
        | None => Some objectList
        end;
      let finish (objectList : list string) : Outcome :=
        let d := Set_ d "object_list" (stringList objectList) in
        let d := SetId d "traffic_manager_list" in
        Some (d, tm, None) in
      match GetOk d "regex_match" with
      | Some regex_match =>
          pattern ← asString regex_match;
          let '(objectList, regexErr) := getStringListMatchingRegex objectList pattern in
          match regexErr with
          | Some e =>
              let d := SetId d "" in
              Some (d, tm, Some e)
          | None => finish objectList
          end
      | None => finish objectList
      end
  end.

(** The table attributes and the list-of-strings attributes (field, key,
    default) of the GLB service. *)
Definition glbServiceTables : list TableAttr := [dnssecKeys; locationSettings].

Definition glbServiceStringLists : list (string * string * list string) :=
  [ ("Basic.ChainedLocationOrder", "chained_location_order", []);
    ("Basic.Domains", "domains", []);
    ("Basic.LastResortResponse", "last_resort_response", []);
    ("Basic.LocationDraining", "location_draining", []);
    ("Basic.Rules", "rules", []) ].

Definition securityStringLists : list (string * string * list string) :=
  [ ("Basic.Access", "access", []);
    ("SshIntrusion.Blacklist", "ssh_intrusion_blacklist", []);
    ("SshIntrusion.Whitelist", "ssh_intrusion_whitelist", []) ].

Definition trafficManagerTables : list TableAttr :=
  [applianceHosts; applianceIf; applianceIp; applianceRoutes; applianceCard; applianceSysctl; trafficip].

Definition trafficManagerStringLists : list (string * string * list string) :=
  [ ("Appliance.NameServers", "appliance_name_servers", []);
    ("Appliance.Ntpservers", "appliance_ntpservers", ["0.zeus.pool.ntp.org"; "1.zeus.pool.ntp.org"; "2.zeus.pool.ntp.org"; "3.zeus.pool.ntp.org"]);
    ("Appliance.SearchDomains", "appliance_search_domains", []);
    ("Appliance.Vlans", "appliance_vlans", []);
    ("Ec2.TrafficipsPublicEnis", "ec2_trafficips_public_enis", []);
    ("FaultTolerance.LssDedicatedIps", "fault_tolerance_lss_dedicated_ips", []);
    ("FaultTolerance.Ospfv2NeighborAddrs", "fault_tolerance_ospfv2_neighbor_addrs", ["%gateway%"]);
    ("RestApi.BindIps", "rest_api_bind_ips", ["*"]);
    ("Snmp.Allow", "snmp_allow", ["all"]) ].

(** ** The provider's resources

    What the [schema.Resource] declarations register as Create and
    Update: the security and traffic manager resources register their
    Update function for both. *)
Inductive Resource : Type := GlbService | Security | TrafficManager.

Inductive Op : Type := OpCreate | OpUpdate.

Definition run (op : Op) (r : Resource)
  : ResourceData → VirtualTrafficManager → Outcome :=
  match r, op with
  | GlbService, OpCreate => resourceGlbServiceCreate
  | GlbService, OpUpdate => resourceGlbServiceUpdate
  | Security, _ => resourceSecurityUpdate
  | TrafficManager, _ => resourceTrafficManagerUpdate
  end.

Definition tablesOf (r : Resource) : list TableAttr :=
  match r with
  | GlbService => glbServiceTables
  | Security => []
  | TrafficManager => trafficManagerTables
  end.

Definition stringListsOf (r : Resource) : list (string * string * list string) :=
  match r with
  | GlbService => glbServiceStringLists
  | Security => securityStringLists
  | TrafficManager => trafficManagerStringLists
  end.

(** The id the function sets: the name attribute, or the fixed id of the
    singleton. *)
Definition idOf (r : Resource) (d : ResourceData) : option string :=
  match r with
  | Security => Some "security"
  | _ => Get d "name" ≫= asString
  end.

(** The object the function starts from: built locally by the Create of
    the GLB service, fetched from the appliance by the others. *)
Definition startsFrom (op : Op) (r : Resource) (d : ResourceData)
    (tm : VirtualTrafficManager) (object : VtmObject) : Prop :=
  match r, op with
  | GlbService, OpCreate =>
      ∃ objectName, idOf r d = Some objectName ∧ object = NewObject "GlbService" objectName
  | GlbService, OpUpdate =>
      ∃ objectName, idOf r d = Some objectName ∧ fetch tm "GetGlbService" objectName = inl object
  | Security, _ => fetch tm "GetSecurity" "" = inl object
  | TrafficManager, _ =>
      ∃ objectName, idOf r d = Some objectName ∧ fetch tm "GetTrafficManager" objectName = inl object
  end.

(** ** Reconciliation as a function of the configuration

    What a table block leaves in the object's field, from the two
    attributes alone: the JSON shadow when [GetOk] reports it, whatever
    [json.Unmarshal] left in the fresh table; else the rows of the
    structured attribute, converted; else the empty table.  [None] where
    the block panics. *)
Definition resolved (t : TableAttr) (d : ResourceData) : option Value :=
  match GetOk d (tJson t) with
  | Some j => s ← asString j; Some (jsonUnmarshal s (VList [])).1
  | None =>
      match GetOk d (tKey t) with
      | Some l => rows ← asSet l; VList <$> mapM (tRow t) rows
      | None => Some (VList [])
      end
  end.

(** What a table block leaves in the structured attribute of the
    resource data. *)
Definition writtenBack (t : TableAttr) (d : ResourceData) : option Value :=
  match GetOk d (tJson t) with
  | Some _ => attrs d !! tKey t
  | None =>
      match GetOk d (tKey t) with
      | Some l => Some l
      | None => Some (VList [])
      end
  end.

(** The configuration is well typed for the table blocks of a body:
    none of them panics. *)
Definition conforms (tables : list TableAttr) (d : ResourceData) : Prop :=
  Forall (λ t, is_Some (resolved t d)) tables.

(** Frame conditions of a statement. *)
Definition keepsAttr (k : string) (a : Action) : Prop :=
  ∀ d o d' o', a (d, o) = Some (d', o') → attrs d' !! k = attrs d !! k.

Definition keepsOk (k : string) (a : Action) : Prop :=
  ∀ d o d' o', a (d, o) = Some (d', o') → GetOk d' k = GetOk d k.

Definition keepsField (f : string) (a : Action) : Prop :=
  ∀ d o d' o', a (d, o) = Some (d', o') → fields o' !! f = fields o !! f.

Definition keepsIdent (a : Action) : Prop :=
  ∀ d o d' o', a (d, o) = Some (d', o') →
    Id d' = Id d ∧ objType o' = objType o ∧ objName o' = objName o.

(** A statement runs without a panic on a conforming configuration and
    leaves it conforming. *)
Definition steps (tables : list TableAttr) (a : Action) : Prop :=
  ∀ d o, conforms tables d →
    ∃ d' o', a (d, o) = Some (d', o') ∧ conforms tables d'.

End Model.

(** ** Read functions by kind, and the vocabulary of the properties

    The Read functions of named objects, each with the resource type of
    its messages and the getter it calls, and those of singletons. *)
Section Reads.
Context `{Helpers}.

Definition ReadFunction : Type := ResourceData → VirtualTrafficManager → Outcome.

Definition namedReads : list (string * string * ReadFunction) :=
  [ ("vtm_glb_service", "GetGlbService", resourceGlbServiceRead);
    ("vtm_traffic_manager", "GetTrafficManager", resourceTrafficManagerRead);
    ("vtm_events", "GetEventStatistics", dataSourceEventStatisticsRead);
    ("vtm_listen_ips", "GetListenIpStatistics", dataSourceListenIpStatisticsRead) ].

Definition singletonReads : list (string * string * ReadFunction) :=
  [ ("vtm_security", "GetSecurity", resourceSecurityRead);
    ("vtm_user_counters_64", "GetExtrasUserCounters64Statistics",
     dataSourceExtrasUserCounters64StatisticsRead) ].

(** The configuration [d] with the attribute [key] holding [v], or left
    out for [None]. *)
Definition withAttr (d : ResourceData) (key : string) (v : option Value) : ResourceData :=
  {| attrs := partial_alter (λ _, v) key (attrs d); Id := Id d |}.



(** ** The filters of the list data source, as a chain

    The filter attributes in the order of the passes, and the pass of
    each. *)
Inductive Filter : Type := StartsWith | EndsWith | Contains | RegexMatch.

Definition filterOrder : list Filter := [StartsWith; EndsWith; Contains; RegexMatch].

Definition filterKey (f : Filter) : string :=
  match f with
  | StartsWith => "starts_with"
  | EndsWith => "ends_with"
  | Contains => "contains"
  | RegexMatch => "regex_match"
  end.

Definition pass (f : Filter) (arg : string) (l : list string) : list string * option error :=
  match f with
  | StartsWith => (getStringListStartingWith l arg, None)
  | EndsWith => (getStringListEndingWith l arg, None)
  | Contains => (getStringListContaining l arg, None)
  | RegexMatch => getStringListMatchingRegex l arg
  end.

(** The filters a configuration supplies, in the order of the passes;
    [None] when a supplied one is not a string. *)
Definition supplied (d : ResourceData) : option (list (Filter * string)) :=
  mapM (λ '(f, v), (f,.) <$> asString v)
       (omap (λ f, (f,.) <$> GetOk d (filterKey f)) filterOrder).

(** The passes one after the other, each on the output of the one
    before; the first error ends the chain. *)
Fixpoint chain (fs : list (Filter * string)) (l : list string) : list string + error :=
  match fs with
  | [] => inl l
  | (f, arg) :: rest =>
      match pass f arg l with
      | (l', None) => chain rest l'
      | (_, Some e) => inr e
      end
  end.

(** Every pass answers with a part of its input, in the input's order. *)
Definition narrowing : Prop :=
  ∀ f arg l, (pass f arg l).1 `sublist_of` l.

(** Every supplied filter is a string. *)
Definition filtersTyped (d : ResourceData) : Prop :=
  ∀ f v, GetOk d (filterKey f) = Some v → is_Some (asString v).

End Reads.

(** ** An instance for examples

    Helpers to run the functions on examples with: setters that store
    the attribute's value, address-of helpers that keep the value,
    filters by prefix, suffix and substring; a decoder that knows the
    empty table ["[]"] and answers anything else with an error, the
    target untouched; an encoder that knows the empty table; a pattern
    matcher that rejects the unbalanced pattern ["("] and takes any
    other pattern as a substring. *)
Definition sampleHelpers : Helpers := {|
  setString := λ d key _, Get d key;
  setBool := λ d key _, Get d key;
  setInt := λ d key _, Get d key;
  setStringList := λ d key _, Get d key;
  getStringAddr := VString;
  getBoolAddr := VBool;
  getIntAddr := VInt;
  getStringListAddr := stringList;
  expandStringList := omap asString;
  getStringListStartingWith := λ l p, filter (λ s, Is_true (String.prefix p s)) l;
  getStringListEndingWith :=
    λ l p, filter (λ s, Is_true (String.prefix (String.rev p) (String.rev s))) l;
  getStringListContaining := λ l p, filter (λ s, is_Some (String.index 0 p s)) l;
  getStringListMatchingRegex :=
    λ l p, if String.eqb p "("
           then ([], Some "error parsing regexp: missing closing ): `(`")
           else (filter (λ s, is_Some (String.index 0 p s)) l, None);
  jsonUnmarshal :=
    λ s target, if String.eqb s "[]" then (VList [], None)
                else (target, Some "unexpected end of JSON input");
  jsonMarshal := λ v, ("[]", None);
  fmtErrorResponse := ErrorText
|}.

Definition sampleRow : Value :=
  VMap (<["domain" := VString "example.com"]>
          (<["ssl_key" := VList [VString "key1"]]> ∅)).

(** A configuration of a GLB service with one structured row and the
    JSON shadow given as [s]. *)
Definition sampleData (s : string) : ResourceData :=
  {| attrs := <["name" := VString "svc"]>
                (<["dnssec_keys_json" := VString s]>
                   (<["dnssec_keys" := VSet [sampleRow]]> ∅));
     Id := "" |}.

(** The same without the JSON shadow. *)
Definition sampleStructured : ResourceData :=
  {| attrs := <["name" := VString "svc"]> (<["dnssec_keys" := VSet [sampleRow]]> ∅);
     Id := "" |}.

(** Only the name. *)
Definition sampleBare : ResourceData :=
  {| attrs := <["name" := VString "svc"]> ∅; Id := "svc" |}.

(** An appliance that holds every object asked for, with no field set,
    lists three traffic managers, and answers every [Apply()] with [answer]. *)
Definition sampleTm (answer : option vtmErrorResponse) : VirtualTrafficManager :=
  {| fetch := λ getter name, inl (NewObject getter name);
     listing := λ _, inl ["alpha"; "azure"; "beta"];
     applyAnswer := λ _, answer;
     sent := [] |}.

(** An appliance that answers every fetch and listing with [err]. *)
Definition failingTm (err : vtmErrorResponse) : VirtualTrafficManager :=
  {| fetch := λ _ _, inr err;
     listing := λ _, inr err;
     applyAnswer := λ _, Some err;
     sent := [] |}.

Definition notFound : vtmErrorResponse :=
  {| ErrorId := "resource.not_found"; ErrorText := "Resource not found" |}.

Definition unauthorized : vtmErrorResponse :=
  {| ErrorId := "auth.unauthorized"; ErrorText := "Invalid credentials" |}.

(** Configurations of the list data source: two filters; a pattern that
    does not compile. *)
Definition sampleFilters : ResourceData :=
  {| attrs := <["starts_with" := VString "a"]> (<["contains" := VString "z"]> ∅);
     Id := "" |}.

Definition sampleBadPattern : ResourceData :=
  {| attrs := <["starts_with" := VString "a"]> (<["regex_match" := VString "("]> ∅);
     Id := "traffic_manager_list" |}.

(** The resource data of the user counters data source after an earlier
    Read. *)
Definition sampleCounters : ResourceData :=
  {| attrs := <["counter" := VInt 7]> ∅; Id := "user_counters_64" |}.


Section Proofs.
Context `{Helpers}.

(** ** Resource data *)

Lemma GetOk_attrs (d d' : ResourceData) (k : string) :
  attrs d' !! k = attrs d !! k → GetOk d' k = GetOk d k.
Proof. unfold GetOk. by intros ->. Qed.

Lemma attrs_Set_eq (d : ResourceData) (k : string) (v : Value) :
  attrs (Set_ d k v) !! k = Some v.
Proof. apply lookup_insert_eq. Qed.

Lemma attrs_Set_ne (d : ResourceData) (k k' : string) (v : Value) :
  k ≠ k' → attrs (Set_ d k v) !! k' = attrs d !! k'.
Proof. intros. by apply lookup_insert_ne. Qed.

Lemma GetOk_Some_attrs (d : ResourceData) (k : string) (v : Value) :
  GetOk d k = Some v → attrs d !! k = Some v.
Proof.
  unfold GetOk. destruct (attrs d !! k) as [w|]; [|done].
  destruct (isZero w); [done|]. by intros [= ->].
Qed.

Lemma GetOk_Set_zero (d : ResourceData) (k : string) (v : Value) :
  isZero v = true → GetOk (Set_ d k v) k = None.
Proof. intros Hz. unfold GetOk. by rewrite attrs_Set_eq, Hz. Qed.

Lemma fields_assign_eq (o : VtmObject) (f : string) (v : Value) :
  fields (assign o f v) !! f = Some v.
Proof. apply lookup_insert_eq. Qed.

Lemma fields_assign_ne (o : VtmObject) (f f' : string) (v : Value) :
  f ≠ f' → fields (assign o f v) !! f' = fields o !! f'.
Proof. intros. by apply lookup_insert_ne. Qed.

(** ** The loop over the rows is a [mapM] *)

Lemma appendRows_mapM (conv : Value → option Value) (rows table : list Value) :
  appendRows conv rows table = (table ++.) <$> mapM conv rows.
Proof.
  revert table. induction rows as [|row rows IH]; intros table; simpl.
  - by rewrite app_nil_r.
  - destruct (conv row) as [o|]; simpl; [|done].
    rewrite IH. destruct (mapM conv rows) as [l|]; simpl; [|done].
    by rewrite <- app_assoc.
Qed.

(** ** What one statement does *)

Lemma callSetter_eq setX f k d o d' o' :
  callSetter setX f k (d, o) = Some (d', o') →
  d' = d ∧ objType o' = objType o ∧ objName o' = objName o ∧
  fields o' = partial_alter (setX d k) f (fields o).
Proof. unfold callSetter. by intros [= <- <-]. Qed.

Lemma stringListAttr_eq f k def d o d' o' :
  stringListAttr f k def (d, o) = Some (d', o') →
  (is_Some (GetOk d k) ∧ d' = d ∧
     fields o' = partial_alter (setStringList d k) f (fields o)
   ∨ GetOk d k = None ∧ d' = Set_ d k (stringList def) ∧
     o' = assign o f (stringList def))
  ∧ objType o' = objType o ∧ objName o' = objName o.
Proof.
  unfold stringListAttr. destruct (GetOk d k) as [v|].
  - intros (-> & ? & ? & ?)%callSetter_eq. split; [left|]; eauto.
  - intros [= <- <-]. split; [right|]; eauto.
Qed.

Lemma tableAttr_eq t d o d' o' :
  tableAttr t (d, o) = Some (d', o') →
  resolved t d = fields o' !! tField t ∧
  (∀ f, f ≠ tField t → fields o' !! f = fields o !! f) ∧
  objType o' = objType o ∧ objName o' = objName o ∧
  Id d' = Id d ∧
  (∀ k, k ≠ tKey t → attrs d' !! k = attrs d !! k) ∧
  attrs d' !! tKey t = writtenBack t d ∧
  GetOk d' (tKey t) = GetOk d (tKey t).
Proof.
  unfold tableAttr, resolved, writtenBack.
  destruct (GetOk d (tJson t)) as [j|] eqn:Hj.
  - destruct (asString j) as [s|]; simpl; [|done].
    destruct (jsonUnmarshal s (VList [])) as [table e]. intros [= <- <-]. simpl.
    rewrite lookup_insert_eq. split_and!; try done.
    intros f Hf. by rewrite !lookup_insert_ne.
  - destruct (GetOk d (tKey t)) as [l|] eqn:Hl.
    + destruct (asSet l) as [rows|]; simpl; [|done].
      rewrite appendRows_mapM. destruct (mapM (tRow t) rows) as [table|]; simpl; [|done].
      intros [= <- <-]. simpl. rewrite !lookup_insert_eq.
      split_and!; try done.
      * intros f Hf. by rewrite !lookup_insert_ne.
      * intros k Hk. by rewrite lookup_insert_ne.
      * rewrite <- Hl. apply GetOk_attrs. rewrite attrs_Set_eq. symmetry.
        by apply GetOk_Some_attrs.
    + intros [= <- <-]. simpl. rewrite !lookup_insert_eq.
      split_and!; try done.
      * intros f Hf. by rewrite lookup_insert_ne.
      * intros k Hk. by rewrite lookup_insert_ne.
      * by rewrite GetOk_Set_zero.
Qed.

Lemma resolved_ext t d d' :
  GetOk d' (tJson t) = GetOk d (tJson t) →
  GetOk d' (tKey t) = GetOk d (tKey t) →
  resolved t d' = resolved t d.
Proof. unfold resolved. by intros -> ->. Qed.

Lemma writtenBack_ext t d d' :
  attrs d' !! tJson t = attrs d !! tJson t →
  attrs d' !! tKey t = attrs d !! tKey t →
  writtenBack t d' = writtenBack t d.
Proof.
  intros Hj Hk. unfold writtenBack.
  by rewrite (GetOk_attrs _ _ _ Hj), (GetOk_attrs _ _ _ Hk), Hk.
Qed.

(** ** Frame lemmas, statement by statement *)

Lemma keepsAttr_callSetter k setX f k' : keepsAttr k (callSetter setX f k').
Proof. intros d o d' o' (-> & _)%callSetter_eq. done. Qed.

Lemma keepsAttr_stringListAttr k f k' def :
  k' ≠ k → keepsAttr k (stringListAttr f k' def).
Proof.
  intros Hne d o d' o' [[(_ & -> & _)|(_ & -> & _)] _]%stringListAttr_eq; [done|].
  by apply attrs_Set_ne.
Qed.

Lemma keepsAttr_tableAttr k t : k ≠ tKey t → keepsAttr k (tableAttr t).
Proof. intros Hne d o d' o' (_ & _ & _ & _ & _ & Hk & _)%tableAttr_eq. by apply Hk. Qed.

Lemma keepsOk_callSetter k setX f k' : keepsOk k (callSetter setX f k').
Proof. intros d o d' o' (-> & _)%callSetter_eq. done. Qed.

Lemma keepsOk_stringListAttr k f k' def :
  k' ≠ k → keepsOk k (stringListAttr f k' def).
Proof.
  intros Hne d o d' o' Hrun. apply GetOk_attrs.
  by eapply keepsAttr_stringListAttr.
Qed.

Lemma keepsOk_tableAttr k t : keepsOk k (tableAttr t).
Proof.
  intros d o d' o' (_ & _ & _ & _ & _ & Hk & _ & Hok)%tableAttr_eq.
  destruct (decide (k = tKey t)) as [->|Hne]; [done|].
  apply GetOk_attrs. by apply Hk.
Qed.

Lemma keepsField_callSetter f setX f' k :
  f' ≠ f → keepsField f (callSetter setX f' k).
Proof.
  intros Hne d o d' o' (_ & _ & _ & ->)%callSetter_eq.
  by apply lookup_partial_alter_ne.
Qed.

Lemma keepsField_stringListAttr f f' k def :
  f' ≠ f → keepsField f (stringListAttr f' k def).
Proof.
  intros Hne d o d' o' [[(_ & _ & ->)|(_ & _ & ->)] _]%stringListAttr_eq.
  - by apply lookup_partial_alter_ne.
  - by apply fields_assign_ne.
Qed.

Lemma keepsField_tableAttr f t : f ≠ tField t → keepsField f (tableAttr t).
Proof. intros Hne d o d' o' (_ & Hf & _)%tableAttr_eq. by apply Hf. Qed.

Lemma keepsIdent_callSetter setX f k : keepsIdent (callSetter setX f k).
Proof. intros d o d' o' (-> & -> & -> & _)%callSetter_eq. done. Qed.

Lemma keepsIdent_stringListAttr f k def : keepsIdent (stringListAttr f k def).
Proof.
  intros d o d' o' [[(_ & -> & _)|(_ & -> & _)] [-> ->]]%stringListAttr_eq; done.
Qed.

Lemma keepsIdent_tableAttr t : keepsIdent (tableAttr t).
Proof. intros d o d' o' (_ & _ & -> & -> & -> & _)%tableAttr_eq. done. Qed.

Lemma steps_callSetter tables setX f k : steps tables (callSetter setX f k).
Proof. intros d o Hd. by eexists _, _. Qed.

Lemma conforms_ext tables d d' :
  Forall (λ t, GetOk d' (tJson t) = GetOk d (tJson t) ∧
               GetOk d' (tKey t) = GetOk d (tKey t)) tables →
  conforms tables d → conforms tables d'.
Proof.
  unfold conforms. rewrite !Forall_forall. intros Hext Hd t Ht.
  destruct (Hext t Ht) as [Hj Hk]. rewrite (resolved_ext _ _ _ Hj Hk). by apply Hd.
Qed.

Lemma steps_stringListAttr tables f k def :
  Forall (λ t, k ≠ tJson t ∧ k ≠ tKey t) tables →
  steps tables (stringListAttr f k def).
Proof.
  intros Hne d o Hd.
  destruct (stringListAttr f k def (d, o)) as [[d' o']|] eqn:Hrun.
  - exists d', o'. split; [done|]. eapply conforms_ext; [|done].
    eapply Forall_impl; [exact Hne|]. intros t [Hj Hk]. simpl in *. split.
    + by eapply keepsOk_stringListAttr.
    + by eapply keepsOk_stringListAttr.
  - unfold stringListAttr, callSetter in Hrun. by destruct (GetOk d k).
Qed.

Lemma tableAttr_total t d o :
  is_Some (resolved t d) → is_Some (tableAttr t (d, o)).
Proof.
  unfold resolved, tableAttr.
  destruct (GetOk d (tJson t)) as [j|].
  - destruct (asString j) as [s|]; simpl; [|by intros [? [=]]].
    by destruct (jsonUnmarshal s (VList [])).
  - destruct (GetOk d (tKey t)) as [l|]; [|done].
    destruct (asSet l) as [rows|]; simpl; [|by intros [? [=]]].
    rewrite appendRows_mapM.
    destruct (mapM (tRow t) rows); simpl; [done|by intros [? [=]]].
Qed.

Lemma steps_tableAttr tables t : t ∈ tables → steps tables (tableAttr t).
Proof.
  intros Ht d o Hd.
  destruct (tableAttr_total t d o) as [[d' o'] Hrun].
  { unfold conforms in Hd. rewrite Forall_forall in Hd. by apply Hd. }
  exists d', o'. split; [done|]. eapply conforms_ext; [|done].
  apply Forall_forall. intros t' _. split; by eapply keepsOk_tableAttr.
Qed.

(** ** Running a whole body *)

Lemma runAll_app (l1 l2 : list Action) st :
  runAll (l1 ++ l2) st = runAll l1 st ≫= runAll l2.
Proof.
  revert st. induction l1 as [|a l1 IH]; intros st; simpl; [done|].
  destruct (a st) as [st1|]; simpl; [apply IH|done].
Qed.

Lemma runAll_keeps (P : ResourceData * VtmObject → Prop) (body : list Action) :
  Forall (λ a, ∀ st st', a st = Some st' → P st → P st') body →
  ∀ st st', runAll body st = Some st' → P st → P st'.
Proof.
  induction 1 as [|a body Ha _ IH]; intros st st'; simpl.
  - by intros [= ->].
  - destruct (a st) as [st1|] eqn:Hst; simpl; [|done]. eauto.
Qed.

Lemma runAll_slot (P Q : ResourceData * VtmObject → Prop) (body : list Action)
    (i : nat) (a : Action) :
  body !! i = Some a →
  Forall (λ b, ∀ st st', b st = Some st' → P st → P st') (take i body) →
  (∀ st st', a st = Some st' → P st → Q st') →
  Forall (λ b, ∀ st st', b st = Some st' → Q st → Q st') (drop (S i) body) →
  ∀ st st', runAll body st = Some st' → P st → Q st'.
Proof.
  intros Hi Hpre Ha Hpost st st' Hrun HP.
  rewrite <- (take_drop_middle body i a Hi), runAll_app in Hrun.
  destruct (runAll (take i body) st) as [st1|] eqn:H1; simpl in Hrun; [|done].
  destruct (a st1) as [st2|] eqn:H2; simpl in Hrun; [|done].
  eapply (runAll_keeps Q); [exact Hpost|exact Hrun|].
  eapply Ha; [exact H2|]. eapply (runAll_keeps P); eauto.
Qed.

Lemma runAll_steps tables (body : list Action) :
  Forall (steps tables) body →
  ∀ d o, conforms tables d →
    ∃ d' o', runAll body (d, o) = Some (d', o') ∧ conforms tables d'.
Proof.
  induction 1 as [|a body Ha _ IH]; intros d o Hd; simpl.
  - by eexists _, _.
  - destruct (Ha d o Hd) as (d1 & o1 & -> & Hd1). simpl. by apply IH.
Qed.

Lemma runAll_ident (body : list Action) :
  Forall keepsIdent body →
  ∀ d o d' o', runAll body (d, o) = Some (d', o') →
    Id d' = Id d ∧ objType o' = objType o ∧ objName o' = objName o.
Proof.
  intros Hall d o d' o' Hrun.
  apply (runAll_keeps (λ st, Id st.1 = Id d ∧ objType st.2 = objType o ∧
                             objName st.2 = objName o) body) with (st := (d, o))
    (st' := (d', o')); [|done|done].
  eapply Forall_impl; [exact Hall|]. intros a Ha [d1 o1] [d2 o2] Hst. simpl.
  destruct (Ha _ _ _ _ Hst) as (-> & -> & ->). done.
Qed.

(** The slot of a table attribute in a body. *)
Lemma runAll_table (body : list Action) (i : nat) (t : TableAttr) :
  body !! i = Some (tableAttr t) →
  tJson t ≠ tKey t →
  Forall (λ b, keepsAttr (tJson t) b ∧ keepsAttr (tKey t) b) (take i body) →
  Forall (λ b, keepsAttr (tJson t) b ∧ keepsAttr (tKey t) b ∧
               keepsField (tField t) b) (drop (S i) body) →
  ∀ d o d' o', runAll body (d, o) = Some (d', o') →
    fields o' !! tField t = resolved t d ∧
    attrs d' !! tJson t = attrs d !! tJson t ∧
    attrs d' !! tKey t = writtenBack t d.
Proof.
  intros Hi Hjk Hpre Hpost d o d' o' Hrun.
  apply (runAll_slot
           (λ st, attrs st.1 !! tJson t = attrs d !! tJson t ∧
                  attrs st.1 !! tKey t = attrs d !! tKey t)
           (λ st, fields st.2 !! tField t = resolved t d ∧
                  attrs st.1 !! tJson t = attrs d !! tJson t ∧
                  attrs st.1 !! tKey t = writtenBack t d)
           body i (tableAttr t) Hi) with (st := (d, o)) (st' := (d', o'));
    [| | |done|done].
  - eapply Forall_impl; [exact Hpre|]. intros b [Hb1 Hb2] [d1 o1] [d2 o2] Hst. simpl.
    intros [<- <-]. split; eauto.
  - intros [d1 o1] [d2 o2] Hst. simpl. intros [Hj Hk].
    pose proof (keepsAttr_tableAttr (tJson t) t Hjk _ _ _ _ Hst) as Hj'.
    apply tableAttr_eq in Hst as (Hres & _ & _ & _ & _ & _ & Hwb & _).
    rewrite <- Hres, Hwb, Hj'. split_and!; [|done|].
    + apply resolved_ext; by apply GetOk_attrs.
    + by apply writtenBack_ext.
  - eapply Forall_impl; [exact Hpost|].
    intros b (Hb1 & Hb2 & Hb3) [d1 o1] [d2 o2] Hst. simpl.
    intros (<- & <- & <-). split_and!; eauto.
Qed.

(** The slot of a list-of-strings attribute in a body. *)
Lemma runAll_stringList (body : list Action) (i : nat) (f k : string)
    (def : list string) :
  body !! i = Some (stringListAttr f k def) →
  Forall (keepsAttr k) (take i body) →
  Forall (λ b, keepsAttr k b ∧ keepsField f b) (drop (S i) body) →
  ∀ d o d' o', runAll body (d, o) = Some (d', o') →
    GetOk d k = None →
    fields o' !! f = Some (stringList def) ∧
    attrs d' !! k = Some (stringList def).
Proof.
  intros Hi Hpre Hpost d o d' o' Hrun Hk.
  apply (runAll_slot
           (λ st, attrs st.1 !! k = attrs d !! k)
           (λ st, fields st.2 !! f = Some (stringList def) ∧
                  attrs st.1 !! k = Some (stringList def))
           body i (stringListAttr f k def) Hi) with (st := (d, o)) (st' := (d', o'));
    [| | |done|done].
  - eapply Forall_impl; [exact Hpre|]. intros b Hb [d1 o1] [d2 o2] Hst. simpl.
    intros <-. eauto.
  - intros [d1 o1] [d2 o2] Hst. simpl. intros Hd1.
    apply stringListAttr_eq in Hst as [[([v Hv] & _)|(_ & -> & ->)] _].
    + rewrite (GetOk_attrs _ _ _ Hd1), Hk in Hv. done.
    + by rewrite fields_assign_eq, attrs_Set_eq.
  - eapply Forall_impl; [exact Hpost|].
    intros b (Hb1 & Hb2) [d1 o1] [d2 o2] Hst. simpl.
    intros [H1 H2]. split; [rewrite <- H1|rewrite <- H2]; eauto.
Qed.

(** ** Automation for the frame conditions of a concrete body *)

Ltac frame_one :=
  lazymatch goal with
  | |- keepsAttr _ (callSetter _ _ _) => apply keepsAttr_callSetter
  | |- keepsAttr _ (stringListAttr _ _ _) => apply keepsAttr_stringListAttr; discriminate
  | |- keepsAttr _ (tableAttr _) => apply keepsAttr_tableAttr; discriminate
  | |- keepsField _ (callSetter _ _ _) => apply keepsField_callSetter; discriminate
  | |- keepsField _ (stringListAttr _ _ _) => apply keepsField_stringListAttr; discriminate
  | |- keepsField _ (tableAttr _) => apply keepsField_tableAttr; discriminate
  | |- keepsIdent (callSetter _ _ _) => apply keepsIdent_callSetter
  | |- keepsIdent (stringListAttr _ _ _) => apply keepsIdent_stringListAttr
  | |- keepsIdent (tableAttr _) => apply keepsIdent_tableAttr
  | |- steps _ (callSetter _ _ _) => apply steps_callSetter
  | |- steps _ (stringListAttr _ _ _) =>
      apply steps_stringListAttr; repeat constructor; discriminate
  | |- steps _ (tableAttr _) =>
      apply steps_tableAttr; repeat first [apply list_elem_of_here | apply list_elem_of_further]
  end.

Ltac frame_conj :=
  lazymatch goal with
  | |- _ ∧ _ => split; frame_conj
  | |- _ => frame_one
  end.

Ltac frame_all :=
  repeat (apply Forall_cons_2; [cbv beta; frame_conj|]);
  apply Forall_nil_2.

(** Find the position of a statement in a body and discharge the frame
    conditions around it. *)
Ltac slot_at lem body i :=
  first
    [ eapply (lem body i); [reflexivity|..]
    | slot_at lem body (S i) ].

(** ** The body of the GLB service *)

Lemma glbServiceSettings_steps : Forall (steps glbServiceTables) glbServiceSettings.
Proof. unfold glbServiceSettings. frame_all. Qed.

Lemma glbServiceSettings_ident : Forall keepsIdent glbServiceSettings.
Proof. unfold glbServiceSettings. frame_all. Qed.

Lemma glbServiceSettings_table t d o d' o' :
  t ∈ glbServiceTables →
  runAll glbServiceSettings (d, o) = Some (d', o') →
  fields o' !! tField t = resolved t d ∧
  attrs d' !! tJson t = attrs d !! tJson t ∧
  attrs d' !! tKey t = writtenBack t d.
Proof.
  intros Ht. unfold glbServiceTables in Ht.
  repeat (apply elem_of_cons in Ht as [->|Ht]); [..|exfalso; exact (not_elem_of_nil _ Ht)].
  all: slot_at runAll_table glbServiceSettings 0%nat;
    [discriminate| |];
    cbv [take drop firstn skipn glbServiceSettings]; simpl; frame_all.
Qed.

Lemma glbServiceSettings_stringList f k def d o d' o' :
  (f, k, def) ∈ glbServiceStringLists →
  runAll glbServiceSettings (d, o) = Some (d', o') →
  GetOk d k = None →
  fields o' !! f = Some (stringList def) ∧ attrs d' !! k = Some (stringList def).
Proof.
  intros Hl. unfold glbServiceStringLists in Hl.
  repeat (apply elem_of_cons in Hl as [[= -> -> ->]|Hl]); [..|exfalso; exact (not_elem_of_nil _ Hl)].
  all: slot_at runAll_stringList glbServiceSettings 0%nat;
    cbv [take drop firstn skipn glbServiceSettings]; simpl; frame_all.
Qed.

(** ** The body of the security resource *)

Lemma securitySettings_steps : Forall (steps []) securitySettings.
Proof. unfold securitySettings. frame_all. Qed.

Lemma securitySettings_stringList f k def d o d' o' :
  (f, k, def) ∈ securityStringLists →
  runAll securitySettings (d, o) = Some (d', o') →
  GetOk d k = None →
  fields o' !! f = Some (stringList def) ∧ attrs d' !! k = Some (stringList def).
Proof.
  intros Hl. unfold securityStringLists in Hl.
  repeat (apply elem_of_cons in Hl as [[= -> -> ->]|Hl]); [..|exfalso; exact (not_elem_of_nil _ Hl)].
  all: slot_at runAll_stringList securitySettings 0%nat;
    cbv [take drop firstn skipn securitySettings]; simpl; frame_all.
Qed.

(** ** The body of the traffic manager *)

Lemma trafficManagerSettings_steps :
  Forall (steps trafficManagerTables) trafficManagerSettings.
Proof. unfold trafficManagerSettings. frame_all. Qed.

Lemma trafficManagerSettings_table t d o d' o' :
  t ∈ trafficManagerTables →
  runAll trafficManagerSettings (d, o) = Some (d', o') →
  fields o' !! tField t = resolved t d ∧
  attrs d' !! tJson t = attrs d !! tJson t ∧
  attrs d' !! tKey t = writtenBack t d.
Proof.
  intros Ht. unfold trafficManagerTables in Ht.
  repeat (apply elem_of_cons in Ht as [->|Ht]); [..|exfalso; exact (not_elem_of_nil _ Ht)].
  all: slot_at runAll_table trafficManagerSettings 0%nat;
    [discriminate| |];
    cbv [take drop firstn skipn trafficManagerSettings]; simpl; frame_all.
Qed.

Lemma trafficManagerSettings_stringList f k def d o d' o' :
  (f, k, def) ∈ trafficManagerStringLists →
  runAll trafficManagerSettings (d, o) = Some (d', o') →
  GetOk d k = None →
  fields o' !! f = Some (stringList def) ∧ attrs d' !! k = Some (stringList def).
Proof.
  intros Hl. unfold trafficManagerStringLists in Hl.
  repeat (apply elem_of_cons in Hl as [[= -> -> ->]|Hl]); [..|exfalso; exact (not_elem_of_nil _ Hl)].
  all: slot_at runAll_stringList trafficManagerSettings 0%nat;
    cbv [take drop firstn skipn trafficManagerSettings]; simpl; frame_all.
Qed.

(** ** Create and Update, resource by resource

    On a well-typed configuration, once the object is at hand, the
    function runs to its end: the object built from the configuration
    is sent, the id is set and no error is returned.  The tables of the
    object are the resolved ones; the resource data keeps its JSON
    shadows and holds what the block wrote at the structured
    attributes; a list of strings that the configuration leaves out is
    at its default on both sides. *)
Lemma body_ok (body : list Action) (tables : list TableAttr)
    (lists : list (string * string * list string)) (d : ResourceData)
    (object : VtmObject) :
  Forall (steps tables) body →
  (∀ t d o d' o', t ∈ tables → runAll body (d, o) = Some (d', o') →
     fields o' !! tField t = resolved t d ∧
     attrs d' !! tJson t = attrs d !! tJson t ∧
     attrs d' !! tKey t = writtenBack t d) →
  (∀ f k def d o d' o', (f, k, def) ∈ lists → runAll body (d, o) = Some (d', o') →
     GetOk d k = None →
     fields o' !! f = Some (stringList def) ∧ attrs d' !! k = Some (stringList def)) →
  conforms tables d →
  ∃ d' object',
    runAll body (d, object) = Some (d', object') ∧
    (∀ t, t ∈ tables →
       fields object' !! tField t = resolved t d ∧
       attrs d' !! tJson t = attrs d !! tJson t ∧
       attrs d' !! tKey t = writtenBack t d) ∧
    (∀ f k def, (f, k, def) ∈ lists → GetOk d k = None →
       fields object' !! f = Some (stringList def) ∧
       attrs d' !! k = Some (stringList def)).
Proof.
  intros Hsteps Htab Hlist Hd.
  destruct (runAll_steps tables body Hsteps d object Hd) as (d' & o' & Hrun & _).
  exists d', o'. split; [done|]. split.
  - intros t Ht. by eapply Htab.
  - intros f k def Hl Hk. by eapply Hlist.
Qed.

Lemma run_ok (op : Op) (r : Resource) (d : ResourceData) (tm : VirtualTrafficManager)
    (object : VtmObject) :
  conforms (tablesOf r) d →
  startsFrom op r d tm object →
  ∃ d' object' objectName,
    idOf r d = Some objectName ∧
    run op r d tm = Some (d', (Apply tm object').1, None) ∧
    Id d' = objectName ∧
    (∀ t, t ∈ tablesOf r →
       fields object' !! tField t = resolved t d ∧
       attrs d' !! tJson t = attrs d !! tJson t ∧
       attrs d' !! tKey t = writtenBack t d) ∧
    (∀ f k def, (f, k, def) ∈ stringListsOf r → GetOk d k = None →
       fields object' !! f = Some (stringList def) ∧
       attrs d' !! k = Some (stringList def)).
Proof.
  intros Hd Hstart.
  assert (∃ objectName body,
    idOf r d = Some objectName ∧
    Forall (steps (tablesOf r)) body ∧
    (∀ t d o d' o', t ∈ tablesOf r → runAll body (d, o) = Some (d', o') →
       fields o' !! tField t = resolved t d ∧
       attrs d' !! tJson t = attrs d !! tJson t ∧
       attrs d' !! tKey t = writtenBack t d) ∧
    (∀ f k def d o d' o', (f, k, def) ∈ stringListsOf r →
       runAll body (d, o) = Some (d', o') → GetOk d k = None →
       fields o' !! f = Some (stringList def) ∧ attrs d' !! k = Some (stringList def)) ∧
    run op r d tm =
      '(d, object) ← runAll body (d, object);
      Some (SetId d objectName, (Apply tm object).1, None))
    as (objectName & body & Hid & Hsteps & Htab & Hlist & Hrun).
  { destruct r, op; cbn [startsFrom idOf tablesOf stringListsOf run] in *.
    - destruct Hstart as (objectName & Hn & ->).
      exists objectName, glbServiceSettings. split_and!; [done|..].
      + apply glbServiceSettings_steps.
      + intros; by eapply glbServiceSettings_table.
      + intros; by eapply glbServiceSettings_stringList.
      + unfold resourceGlbServiceCreate. rewrite Hn. reflexivity.
    - destruct Hstart as (objectName & Hn & Hf).
      exists objectName, glbServiceSettings. split_and!; [done|..].
      + apply glbServiceSettings_steps.
      + intros; by eapply glbServiceSettings_table.
      + intros; by eapply glbServiceSettings_stringList.
      + unfold resourceGlbServiceUpdate. rewrite Hn. cbn [mbind option_bind]. rewrite Hf. reflexivity.
    - exists "security", securitySettings. split_and!; [done|..].
      + apply securitySettings_steps.
      + intros t ???? Ht. exfalso. exact (not_elem_of_nil _ Ht).
      + intros; by eapply securitySettings_stringList.
      + unfold resourceSecurityUpdate. rewrite Hstart. reflexivity.
    - exists "security", securitySettings. split_and!; [done|..].
      + apply securitySettings_steps.
      + intros t ???? Ht. exfalso. exact (not_elem_of_nil _ Ht).
      + intros; by eapply securitySettings_stringList.
      + unfold resourceSecurityUpdate. rewrite Hstart. reflexivity.
    - destruct Hstart as (objectName & Hn & Hf).
      exists objectName, trafficManagerSettings. split_and!; [done|..].
      + apply trafficManagerSettings_steps.
      + intros; by eapply trafficManagerSettings_table.
      + intros; by eapply trafficManagerSettings_stringList.
      + unfold resourceTrafficManagerUpdate. rewrite Hn. cbn [mbind option_bind]. rewrite Hf. reflexivity.
    - destruct Hstart as (objectName & Hn & Hf).
      exists objectName, trafficManagerSettings. split_and!; [done|..].
      + apply trafficManagerSettings_steps.
      + intros; by eapply trafficManagerSettings_table.
      + intros; by eapply trafficManagerSettings_stringList.
      + unfold resourceTrafficManagerUpdate. rewrite Hn. cbn [mbind option_bind]. rewrite Hf. reflexivity. }
  destruct (body_ok body (tablesOf r) (stringListsOf r) d object Hsteps Htab Hlist Hd)
    as (d' & object' & Hbody & Htab' & Hlist').
  exists (SetId d' objectName), object', objectName.
  split_and!; [done| |done|done|done].
  rewrite Hrun, Hbody. done.
Qed.

(** The keys of the table attributes of a resource are apart from each
    other, from the JSON shadows and from the name. *)
Lemma table_keys_apart (r : Resource) (t t' : TableAttr) :
  t ∈ tablesOf r → t' ∈ tablesOf r →
  tKey t ≠ "name" ∧ tKey t ≠ tJson t' ∧ (tKey t = tKey t' → t' = t).
Proof.
  intros Ht Ht'. destruct r; cbn [tablesOf] in *.
  - unfold glbServiceTables in *.
    repeat (apply elem_of_cons in Ht as [->|Ht]); try (exfalso; exact (not_elem_of_nil _ Ht));
    repeat (apply elem_of_cons in Ht' as [->|Ht']); try (exfalso; exact (not_elem_of_nil _ Ht'));
    (split_and!; [discriminate|discriminate|first [reflexivity|discriminate]]).
  - exfalso. exact (not_elem_of_nil _ Ht).
  - unfold trafficManagerTables in *.
    repeat (apply elem_of_cons in Ht as [->|Ht]); try (exfalso; exact (not_elem_of_nil _ Ht));
    repeat (apply elem_of_cons in Ht' as [->|Ht']); try (exfalso; exact (not_elem_of_nil _ Ht'));
    (split_and!; [discriminate|discriminate|first [reflexivity|discriminate]]).
Qed.

Lemma GetOk_withAttr_ne d k k' v : k ≠ k' → GetOk (withAttr d k v) k' = GetOk d k'.
Proof. intros. apply GetOk_attrs. by apply lookup_partial_alter_ne. Qed.

(** With the JSON shadow of [t] given, the structured attribute of [t]
    can hold anything: the configuration stays well typed and starts
    from the same object. *)
Lemma withAttr_shadowed op r t d tm object j l :
  t ∈ tablesOf r →
  GetOk d (tJson t) = Some j → is_Some (asString j) →
  conforms (tablesOf r) d → startsFrom op r d tm object →
  conforms (tablesOf r) (withAttr d (tKey t) l) ∧
  startsFrom op r (withAttr d (tKey t) l) tm object ∧
  GetOk (withAttr d (tKey t) l) (tJson t) = Some j.
Proof.
  intros Ht Hj Hs Hd Hstart.
  destruct (table_keys_apart r t t Ht Ht) as (Hname & Hjk & _).
  assert (GetOk (withAttr d (tKey t) l) (tJson t) = Some j) as Hj'.
  { by rewrite GetOk_withAttr_ne. }
  split_and!; [| |done].
  - unfold conforms in *. rewrite Forall_forall in *. intros t' Ht'.
    destruct (table_keys_apart r t t' Ht Ht') as (_ & Hjk' & Hsame).
    destruct (decide (tKey t = tKey t')) as [Heq|Hne].
    + rewrite (Hsame Heq). unfold resolved. rewrite Hj'.
      destruct Hs as [s ->]. by eexists.
    + rewrite (resolved_ext t' d); [by apply Hd| |]; by apply GetOk_withAttr_ne.
  - assert (idOf r (withAttr d (tKey t) l) = idOf r d) as Hid.
    { destruct r; [|done|]; unfold idOf, Get, withAttr; simpl;
        by rewrite lookup_partial_alter_ne. }
    destruct r, op; cbn [startsFrom] in *; try done; by rewrite Hid.
Qed.

End Proofs.

Section Properties.
Context `{Helpers}.

(** ** Table attributes in Create and Update *)

(** C1: for every table attribute of every resource, in Create and in
    Update, when the JSON shadow attribute is set (GetOk reports it)
    and json.Unmarshal decodes it without error, the table sent
    upstream is the decoded one, whatever [l] the structured attribute
    holds, nothing included. *)
Theorem json_shadow_wins (op : Op) (r : Resource) (t : TableAttr) (d : ResourceData)
    (tm : VirtualTrafficManager) (object : VtmObject) (s : string) (table : Value)
    (l : option Value) :
  t ∈ tablesOf r →
  conforms (tablesOf r) d →
  startsFrom op r d tm object →
  GetOk d (tJson t) = Some (VString s) →
  jsonUnmarshal s (VList []) = (table, None) →
  ∃ d' tm' object',
    run op r (withAttr d (tKey t) l) tm = Some (d', tm', None) ∧
    sent tm' = object' :: sent tm ∧
    fields object' !! tField t = Some table.
Proof.
  intros Ht Hd Hstart Hj Hdec.
  destruct (withAttr_shadowed op r t d tm object (VString s) l Ht Hj)
    as (Hd' & Hstart' & Hj'); [by eexists|done|done|].
  destruct (run_ok op r _ tm object Hd' Hstart')
    as (d' & object' & objectName & _ & Hrun & _ & Htab & _).
  exists d', (Apply tm object').1, object'. split_and!; [done|done|].
  destruct (Htab t Ht) as (-> & _). unfold resolved. rewrite Hj'. simpl.
  by rewrite Hdec.
Qed.


(** C4: for every table attribute, when the JSON shadow is set and
    json.Unmarshal fails on it, Create and Update go on all the same:
    the object, with whatever the failed decoding left in the table, is
    sent, the id is set, and no error is returned. *)
Theorem malformed_json_swallowed (op : Op) (r : Resource) (t : TableAttr)
    (d : ResourceData) (tm : VirtualTrafficManager) (object : VtmObject)
    (s : string) (table : Value) (e : error) :
  t ∈ tablesOf r →
  conforms (tablesOf r) d →
  startsFrom op r d tm object →
  GetOk d (tJson t) = Some (VString s) →
  jsonUnmarshal s (VList []) = (table, Some e) →
  ∃ d' tm' object' objectName,
    run op r d tm = Some (d', tm', None) ∧
    idOf r d = Some objectName ∧ Id d' = objectName ∧
    sent tm' = object' :: sent tm ∧
    fields object' !! tField t = Some table.
Proof.
  intros Ht Hd Hstart Hj Hdec.
  destruct (run_ok op r d tm object Hd Hstart)
    as (d' & object' & objectName & Hid & Hrun & Hid' & Htab & _).
  exists d', (Apply tm object').1, object', objectName. split_and!; try done.
  destruct (Htab t Ht) as (-> & _). unfold resolved. rewrite Hj. simpl.
  by rewrite Hdec.
Qed.


(** ** Lists of strings *)



(** ** The result of Apply *)

(** C10: for every well-typed configuration, once the object is at hand
    (built by the Create of the GLB service, fetched by the others),
    every Create and Update sends the object, sets the id and returns
    no error, whatever the appliance answers to Apply(): the answer is
    the second component of [Apply tm object'], which the outcome does
    not hold. *)
Theorem apply_result_discarded (op : Op) (r : Resource) (d : ResourceData)
    (tm : VirtualTrafficManager) (object : VtmObject) :
  conforms (tablesOf r) d →
  startsFrom op r d tm object →
  ∃ d' object' objectName,
    run op r d tm = Some (d', (Apply tm object').1, None) ∧
    idOf r d = Some objectName ∧ Id d' = objectName ∧
    sent (Apply tm object').1 = object' :: sent tm.
Proof.
  intros Hd Hstart.
  destruct (run_ok op r d tm object Hd Hstart)
    as (d' & object' & objectName & Hid & Hrun & Hid' & _).
  by exists d', object', objectName.
Qed.

(** ** Errors of the Read functions *)

(** A Read of a named object on a failed fetch. *)
Lemma named_read_failed ty getter (read : ReadFunction) d tm objectName err :
  (ty, getter, read) ∈ namedReads →
  Get d "name" = Some (VString objectName) →
  fetch tm getter objectName = inr err →
  read d tm =
    if String.eqb (ErrorId err) "resource.not_found"
    then Some (SetId d "", tm, None)
    else Some (d, tm, Some (failedNamed "read" ty objectName (ErrorText err))).
Proof.
  intros Hr Hn Hf. unfold namedReads in Hr.
  repeat (apply elem_of_cons in Hr as [[= -> -> ->]|Hr]);
    [..|exfalso; exact (not_elem_of_nil _ Hr)].
  - unfold resourceGlbServiceRead. rewrite Hn. cbn [mbind option_bind asString].
    rewrite Hf. reflexivity.
  - unfold resourceTrafficManagerRead. rewrite Hn. cbn [mbind option_bind asString].
    rewrite Hf. reflexivity.
  - unfold dataSourceEventStatisticsRead. rewrite Hn. cbn [mbind option_bind asString].
    rewrite Hf. reflexivity.
  - unfold dataSourceListenIpStatisticsRead. rewrite Hn. cbn [mbind option_bind asString].
    rewrite Hf. reflexivity.
Qed.

(** C3, as the code has it: a Read of a named object clears the id and
    returns no error on "not found", and returns every other error of
    the fetch wrapped with the resource type and the name, the resource
    data untouched; a Read of a singleton (security, the 64-bit user
    counters) returns every error of the fetch, "not found" too, wrapped
    with the resource type, the id untouched; the list data source
    clears the id and returns the error of the listing wrapped with its
    type. *)
Theorem read_errors :
  (∀ ty getter (read : ReadFunction) d tm objectName err,
     (ty, getter, read) ∈ namedReads →
     Get d "name" = Some (VString objectName) →
     fetch tm getter objectName = inr err →
     (ErrorId err = "resource.not_found" → read d tm = Some (SetId d "", tm, None)) ∧
     (ErrorId err ≠ "resource.not_found" →
        read d tm = Some (d, tm, Some (failedNamed "read" ty objectName (ErrorText err))))) ∧
  (∀ ty getter (read : ReadFunction) d tm err,
     (ty, getter, read) ∈ singletonReads →
     fetch tm getter "" = inr err →
     read d tm = Some (d, tm, Some (failedSingleton "read" ty (ErrorText err)))) ∧
  (∀ d tm err,
     listing tm "ListTrafficManagers" = inr err →
     dataSourceTrafficManagerListRead d tm =
       Some (SetId d "", tm,
             Some (failedSingleton "read" "vtm_traffic_manager_list" (ErrorText err)))).
Proof.
  split_and!.
  - intros ty getter read d tm objectName err Hr Hn Hf.
    rewrite (named_read_failed ty getter read d tm objectName err Hr Hn Hf). split.
    + intros ->. reflexivity.
    + intros Hne. destruct (String.eqb_spec (ErrorId err) "resource.not_found"); done.
  - intros ty getter read d tm err Hr Hf. unfold singletonReads in Hr.
    repeat (apply elem_of_cons in Hr as [[= -> -> ->]|Hr]);
      [..|exfalso; exact (not_elem_of_nil _ Hr)].
    + unfold resourceSecurityRead. by rewrite Hf.
    + unfold dataSourceExtrasUserCounters64StatisticsRead. by rewrite Hf.
  - intros d tm err Hl. unfold dataSourceTrafficManagerListRead. by rewrite Hl.
Qed.

(** C9: for every named object (GLB service, traffic manager, event
    statistics, listen IP statistics), a Read that the appliance answers
    with "resource.not_found" sets the id to the empty string and
    returns no error. *)
Theorem named_read_not_found (ty getter : string) (read : ReadFunction)
    (d : ResourceData) (tm : VirtualTrafficManager) (objectName : string)
    (err : vtmErrorResponse) :
  (ty, getter, read) ∈ namedReads →
  Get d "name" = Some (VString objectName) →
  fetch tm getter objectName = inr err →
  ErrorId err = "resource.not_found" →
  ∃ d', read d tm = Some (d', tm, None) ∧ Id d' = "" ∧ attrs d' = attrs d.
Proof.
  intros Hr Hn Hf Hid. exists (SetId d "").
  rewrite (named_read_failed ty getter read d tm objectName err Hr Hn Hf), Hid.
  done.
Qed.

(** ** The list data source *)

(** The Read of the list data source is the chain of the supplied
    filters on the listing. *)
Lemma list_read_chain d tm objectList :
  listing tm "ListTrafficManagers" = inl objectList →
  dataSourceTrafficManagerListRead d tm =
    fs ← supplied d;
    Some (match chain fs objectList with
          | inl l =>
              (SetId (Set_ d "object_list" (stringList l)) "traffic_manager_list", tm, None)
          | inr e => (SetId d "", tm, Some e)
          end).
Proof.
  intros Hl. unfold dataSourceTrafficManagerListRead, supplied, filterOrder.
  rewrite Hl. simpl.
  destruct (GetOk d "starts_with") as [v1|]; simpl;
    [destruct (asString v1) as [s1|]; simpl; [|reflexivity]|].
  all: destruct (GetOk d "ends_with") as [v2|]; simpl;
    [destruct (asString v2) as [s2|]; simpl; [|reflexivity]|].
  all: destruct (GetOk d "contains") as [v3|]; simpl;
    [destruct (asString v3) as [s3|]; simpl; [|reflexivity]|].
  all: destruct (GetOk d "regex_match") as [v4|]; simpl;
    [destruct (asString v4) as [s4|]; simpl; [|reflexivity]|]; try reflexivity.
  all: destruct (getStringListMatchingRegex _ s4) as [l' [e|]]; reflexivity.
Qed.

(** With passes that narrow, so does the chain. *)
Lemma chain_narrows fs l l' :
  narrowing → chain fs l = inl l' → l' `sublist_of` l.
Proof.
  intros Hn. revert l. induction fs as [|[f arg] fs IH]; intros l; simpl.
  - by intros [= ->].
  - pose proof (Hn f arg l) as Hsub.
    destruct (pass f arg l) as [l1 [e|]]; [done|].
    intros Hchain. etrans; [by apply IH|done].
Qed.

(** C5: for every listing and every configuration, the Read of the list
    data source applies the supplied filters one after the other, each
    on the output of the one before, in the order starts_with,
    ends_with, contains, regex_match; in particular, with starts_with
    and contains supplied, as [a] and [z], and the other two left out,
    the list it sets is the contains pass on the output of the
    starts_with pass. *)
Theorem list_filters_chain (d : ResourceData) (tm : VirtualTrafficManager)
    (objectList : list string) :
  listing tm "ListTrafficManagers" = inl objectList →
  dataSourceTrafficManagerListRead d tm =
    (fs ← supplied d;
     Some (match chain fs objectList with
           | inl l =>
               (SetId (Set_ d "object_list" (stringList l)) "traffic_manager_list", tm, None)
           | inr e => (SetId d "", tm, Some e)
           end)) ∧
  (∀ a z,
     GetOk d "starts_with" = Some (VString a) → GetOk d "ends_with" = None →
     GetOk d "contains" = Some (VString z) → GetOk d "regex_match" = None →
     dataSourceTrafficManagerListRead d tm =
       Some (SetId (Set_ d "object_list"
                      (stringList (getStringListContaining
                                     (getStringListStartingWith objectList a) z)))
                   "traffic_manager_list", tm, None)).
Proof.
  intros Hl. split; [by apply list_read_chain|].
  intros a z Hs He Hc Hr. rewrite (list_read_chain d tm objectList Hl).
  unfold supplied, filterOrder. simpl. rewrite Hs, He, Hc, Hr. reflexivity.
Qed.

(** C8: in the Read of the list data source, once the listing is
    fetched, when regex_match is supplied and its pattern does not
    compile - the matcher answers with the error [e] whatever the list -
    the id is cleared and [e] is returned. *)
Theorem regex_failure_clears_id (d : ResourceData) (tm : VirtualTrafficManager)
    (objectList : list string) (pat : string) (e : error) :
  listing tm "ListTrafficManagers" = inl objectList →
  filtersTyped d →
  GetOk d "regex_match" = Some (VString pat) →
  (∀ l, (getStringListMatchingRegex l pat).2 = Some e) →
  ∃ d', dataSourceTrafficManagerListRead d tm = Some (d', tm, Some e) ∧
        Id d' = "" ∧ attrs d' = attrs d.
Proof.
  intros Hl Hty Hr Hfail. exists (SetId d ""). split; [|done].
  unfold dataSourceTrafficManagerListRead. rewrite Hl.
  destruct (GetOk d "starts_with") as [v1|] eqn:E1;
    [destruct (Hty StartsWith v1 E1) as [s1 ->]|]; simpl.
  all: destruct (GetOk d "ends_with") as [v2|] eqn:E2;
    [destruct (Hty EndsWith v2 E2) as [s2 ->]|]; simpl.
  all: destruct (GetOk d "contains") as [v3|] eqn:E3;
    [destruct (Hty Contains v3 E3) as [s3 ->]|]; simpl.
  all: rewrite Hr; simpl.
  all: match goal with
       | |- context [getStringListMatchingRegex ?l ?p] =>
           specialize (Hfail l); destruct (getStringListMatchingRegex l p) as [l' o]
       end; simpl in Hfail; by subst o.
Qed.

End Properties.

(** ** The theorems on examples *)

#[local] Existing Instance sampleHelpers.

Lemma sampleHelpers_narrowing : narrowing.
Proof.
  intros f arg l. destruct f; simpl; try apply sublist_filter.
  destruct (String.eqb arg "("); simpl; [apply sublist_nil_l|apply sublist_filter].
Qed.

Lemma sampleData_conforms s :
  (s = "[]" ∨ s = "{") → conforms glbServiceTables (sampleData s).
Proof.
  intros [-> | ->]; unfold conforms, glbServiceTables;
    repeat apply Forall_cons_2; try apply Forall_nil_2; vm_compute; by eexists.
Defined.

Lemma json_shadow_wins_witness :
  ∃ d' tm' object',
    run (H:=sampleHelpers) OpCreate GlbService
        (withAttr (sampleData "[]") "dnssec_keys" (Some (VSet [sampleRow; sampleRow])))
        (sampleTm None) = Some (d', tm', None) ∧
    sent tm' = object' :: [] ∧
    fields object' !! "Basic.DnssecKeys" = Some (VList []).
Proof.
  apply (json_shadow_wins (H:=sampleHelpers) OpCreate GlbService dnssecKeys
           (sampleData "[]") (sampleTm None) (NewObject "GlbService" "svc")
           "[]" (VList []) (Some (VSet [sampleRow; sampleRow]))).
  - apply list_elem_of_here.
  - apply sampleData_conforms. by left.
  - exists "svc". split; reflexivity.
  - reflexivity.
  - reflexivity.
Defined.



Lemma malformed_json_swallowed_witness :
  ∃ d' tm' object' objectName,
    run OpCreate GlbService (sampleData "{") (sampleTm None) = Some (d', tm', None) ∧
    idOf GlbService (sampleData "{") = Some objectName ∧ Id d' = objectName ∧
    sent tm' = object' :: [] ∧
    fields object' !! "Basic.DnssecKeys" = Some (VList []).
Proof.
  apply (malformed_json_swallowed (H:=sampleHelpers) OpCreate GlbService dnssecKeys
           (sampleData "{") (sampleTm None) (NewObject "GlbService" "svc")
           "{" (VList []) "unexpected end of JSON input").
  - apply list_elem_of_here.
  - apply sampleData_conforms. by right.
  - exists "svc". split; reflexivity.
  - reflexivity.
  - reflexivity.
Defined.



Lemma apply_result_discarded_witness :
  applyAnswer (sampleTm (Some unauthorized)) = (λ _, Some unauthorized) ∧
  ∃ d' object' objectName,
    run OpUpdate GlbService sampleStructured (sampleTm (Some unauthorized)) =
      Some (d', (Apply (sampleTm (Some unauthorized)) object').1, None) ∧
    idOf GlbService sampleStructured = Some objectName ∧ Id d' = objectName ∧
    sent (Apply (sampleTm (Some unauthorized)) object').1 = object' :: [].
Proof.
  split; [reflexivity|].
  apply (apply_result_discarded (H:=sampleHelpers) OpUpdate GlbService sampleStructured
           (sampleTm (Some unauthorized)) (NewObject "GetGlbService" "svc")).
  - unfold conforms, tablesOf, glbServiceTables.
    repeat apply Forall_cons_2; try apply Forall_nil_2; vm_compute; by eexists.
  - exists "svc". split; reflexivity.
Defined.

(** C3, as the specification states it, does not hold for the singleton user
    counters: on "not found" its Read returns an error and leaves the id
    as it was. *)
Lemma user_counters_not_found_is_error :
  ErrorId notFound = "resource.not_found" ∧
  dataSourceExtrasUserCounters64StatisticsRead sampleCounters (failingTm notFound) =
    Some (sampleCounters, failingTm notFound,
          Some "Failed to read vtm_user_counters_64: Resource not found") ∧
  Id sampleCounters = "user_counters_64" ∧
  dataSourceExtrasUserCounters64StatisticsRead sampleCounters (failingTm notFound) ≠
    Some (SetId sampleCounters "", failingTm notFound, None).
Proof. split_and!; [reflexivity|reflexivity|reflexivity|discriminate]. Qed.

Lemma read_errors_witness :
  resourceGlbServiceRead sampleBare (failingTm notFound) =
    Some (SetId sampleBare "", failingTm notFound, None) ∧
  dataSourceListenIpStatisticsRead sampleBare (failingTm unauthorized) =
    Some (sampleBare, failingTm unauthorized,
          Some (failedNamed "read" "vtm_listen_ips" "svc" "Invalid credentials")) ∧
  dataSourceExtrasUserCounters64StatisticsRead sampleCounters (failingTm notFound) =
    Some (sampleCounters, failingTm notFound,
          Some (failedSingleton "read" "vtm_user_counters_64" "Resource not found")) ∧
  dataSourceTrafficManagerListRead sampleFilters (failingTm unauthorized) =
    Some (SetId sampleFilters "", failingTm unauthorized,
          Some (failedSingleton "read" "vtm_traffic_manager_list" "Invalid credentials")).
Proof.
  destruct (read_errors (H:=sampleHelpers)) as (Hnamed & Hsingle & Hlist).
  split_and!.
  - apply (Hnamed "vtm_glb_service" "GetGlbService" resourceGlbServiceRead
             sampleBare (failingTm notFound) "svc" notFound);
      [apply list_elem_of_here|reflexivity|reflexivity|reflexivity].
  - apply (Hnamed "vtm_listen_ips" "GetListenIpStatistics" dataSourceListenIpStatisticsRead
             sampleBare (failingTm unauthorized) "svc" unauthorized);
      [do 3 apply list_elem_of_further; apply list_elem_of_here
      |reflexivity|reflexivity|discriminate].
  - apply (Hsingle "vtm_user_counters_64" "GetExtrasUserCounters64Statistics"
             dataSourceExtrasUserCounters64StatisticsRead
             sampleCounters (failingTm notFound) notFound);
      [apply list_elem_of_further, list_elem_of_here|reflexivity].
  - apply (Hlist sampleFilters (failingTm unauthorized) unauthorized). reflexivity.
Defined.

Lemma named_read_not_found_witness :
  ∃ d', dataSourceEventStatisticsRead sampleBare (failingTm notFound) =
          Some (d', failingTm notFound, None) ∧
        Id d' = "" ∧ attrs d' = attrs sampleBare.
Proof.
  apply (named_read_not_found (H:=sampleHelpers) "vtm_events" "GetEventStatistics"
           dataSourceEventStatisticsRead sampleBare (failingTm notFound) "svc" notFound).
  - do 2 apply list_elem_of_further. apply list_elem_of_here.
  - reflexivity.
  - reflexivity.
  - reflexivity.
Defined.

Lemma list_filters_chain_witness :
  dataSourceTrafficManagerListRead sampleFilters (sampleTm None) =
    Some (SetId (Set_ sampleFilters "object_list" (stringList ["azure"]))
                "traffic_manager_list", sampleTm None, None).
Proof.
  destruct (list_filters_chain (H:=sampleHelpers) sampleFilters (sampleTm None)
              ["alpha"; "azure"; "beta"]) as [_ Hboth]; [reflexivity|].
  apply (Hboth "a" "z"); reflexivity.
Defined.

Lemma regex_failure_clears_id_witness :
  ∃ d', dataSourceTrafficManagerListRead sampleBadPattern (sampleTm None) =
          Some (d', sampleTm None,
                Some "error parsing regexp: missing closing ): `(`") ∧
        Id d' = "" ∧ attrs d' = attrs sampleBadPattern.
Proof.
  apply (regex_failure_clears_id (H:=sampleHelpers) sampleBadPattern (sampleTm None)
           ["alpha"; "azure"; "beta"] "(").
  - reflexivity.
  - intros f v. destruct f; vm_compute; intros Hv; try discriminate Hv;
      injection Hv as <-; by eexists.
  - reflexivity.
  - intros l. reflexivity.
Defined.
